(** * Capsule TLS reconciler (controllers/tls/manager.go)

    A shallow embedding of the certificate-lifecycle reconciliation loop:
    the rotation decision, the regeneration and persistence of the trust
    secret, the propagation of the CA bundle to the admission webhook
    configurations and to the tenant CRD, the freshness annotation put on
    the operator pods, and the requeue arithmetic.

    The Kubernetes API server is modelled as a record of finite maps, one per
    resource kind, threaded through a state-and-error monad.  The [cert]
    package, the clock, the random source and the process environment lie
    outside manager.go: they are taken as an interface ([CertPackage]) and
    as per-pass readings ([Ambient]).  Logging has no effect on any
    modelled state and is left out. *)

From Stdlib Require Import ZArith String Ascii List Lia DecimalString DecimalZ.
From stdpp Require Import base decidable option list gmap strings fin_maps.

Local Open Scope Z_scope.
Local Open Scope string_scope.
Local Open Scope list_scope.

(** ** Machine integers *)

(** Go's [int64] (and [time.Duration], which is an [int64]) wraps around in
    two's complement. *)
Definition wrap64 (z : Z) : Z := (z + 2 ^ 63) mod 2 ^ 64 - 2 ^ 63.

Definition int64_min : Z := - 2 ^ 63.
Definition int64_max : Z := 2 ^ 63 - 1.

(** [[]byte] *)
Abbreviation Bytes := (list Byte.byte).

#[global] Instance byte_eq_dec : EqDecision Byte.byte := Byte.byte_eq_dec.

(** ** Package [time] *)

Module time.

(** A [Duration] is a count of nanoseconds held in an [int64]. *)
Definition Duration : Type := Z.

(** An instant, as nanoseconds since the Unix epoch. *)
Definition Time : Type := Z.

Definition Nanosecond : Duration := 1.
Definition Microsecond : Duration := 1000 * Nanosecond.
Definition Millisecond : Duration := 1000 * Microsecond.
Definition Second : Duration := 1000 * Millisecond.
Definition Minute : Duration := 60 * Second.
Definition Hour : Duration := 60 * Minute.

(** [t.Unix()]: whole seconds since the epoch (rounded down). *)
Definition Unix (t : Time) : Z := t / Second.

(** [t.Add(d)] *)
Definition Add (t : Time) (d : Duration) : Time := t + d.

(** [d1 * d2] and [d1 - d2] on [Duration] values computed at run time. *)
Definition mul (a b : Duration) : Duration := wrap64 (a * b).
Definition sub (a b : Duration) : Duration := wrap64 (a - b).

End time.

(** ** Constants of the controller (manager.go, lines 36-41) *)

Definition certificateExpirationThreshold : time.Duration := 3 * 24 * time.Hour.
Definition certificateReconciliationThreshold : time.Duration := 4 * 24 * time.Hour.
Definition certificateValidity : time.Duration := 6 * 30 * 24 * time.Hour.
Definition PodUpdateAnnotationName : string := "capsule.clastix.io/updated".

(** ** Object identity and errors *)

(** [types.NamespacedName{Namespace, Name}]; cluster-scoped objects have an
    empty namespace. *)
Abbreviation NamespacedName := (string * string)%type.

Inductive Kind : Type :=
| KSecret
| KValidatingWebhookConfiguration
| KMutatingWebhookConfiguration
| KCustomResourceDefinition
| KPod.

#[global] Instance Kind_eq_dec : EqDecision Kind.
Proof. solve_decision. Defined.

Inductive Error : Type :=
| StatusNotFound (kind : Kind) (key : NamespacedName)
| StatusAlreadyExists (kind : Kind) (key : NamespacedName)
| StatusConflict (kind : Kind) (key : NamespacedName)
| Errorf (msg : string)
| CertError (msg : string).

#[global] Instance Error_eq_dec : EqDecision Error.
Proof. solve_decision. Defined.

(** [apierrors.IsNotFound] and [apierrors.IsConflict] *)
Definition IsNotFound (e : Error) : bool :=
  match e with StatusNotFound _ _ => true | _ => false end.

Definition IsConflict (e : Error) : bool :=
  match e with StatusConflict _ _ => true | _ => false end.

(** ** API objects *)

Module metav1.

(** The part of [ObjectMeta] the controller reads or writes.  A nil
    annotation map is [None]. *)
Record ObjectMeta : Type := mkObjectMeta {
  Name : string;
  Namespace : string;
  Labels : gmap string string;
  Annotations : option (gmap string string)
}.

#[global] Instance ObjectMeta_eq_dec : EqDecision ObjectMeta.
Proof. solve_decision. Defined.

Definition zero : ObjectMeta := mkObjectMeta "" "" ∅ None.

Definition withAnnotations (a : option (gmap string string)) (m : ObjectMeta) : ObjectMeta :=
  mkObjectMeta (Name m) (Namespace m) (Labels m) a.

End metav1.

Module corev1.

Definition TLSCertKey : string := "tls.crt".
Definition TLSPrivateKeyKey : string := "tls.key".
Definition ServiceAccountRootCAKey : string := "ca.crt".

Record Secret : Type := mkSecret {
  SecretMeta : metav1.ObjectMeta;
  Data : gmap string Bytes;
  SecretType : string
}.

#[global] Instance Secret_eq_dec : EqDecision Secret.
Proof. solve_decision. Defined.

Definition withData (d : gmap string Bytes) (s : Secret) : Secret :=
  mkSecret (SecretMeta s) d (SecretType s).

(** The pod specification and status are opaque to the controller. *)
Record Pod : Type := mkPod {
  PodMeta : metav1.ObjectMeta;
  PodSpec : string
}.

#[global] Instance Pod_eq_dec : EqDecision Pod.
Proof. solve_decision. Defined.

Definition withPodMeta (m : metav1.ObjectMeta) (p : Pod) : Pod :=
  mkPod m (PodSpec p).

End corev1.

(** [m[k]] on a Go map of byte slices: a missing key reads as the nil
    slice. *)
Definition index (m : gmap string Bytes) (k : string) : Bytes :=
  default [] (m !! k).

(** ** The [cert] package and the configuration, as consumed interfaces *)

(** Modelled from the spec: the options type built by [cert.NewCertOpts]
    is not under src/; per the CertificateAuthority interface
    ([generateLeaf(ca, validUntil, subjectAltName)]) it carries the end of
    the validity window and the subject alternative names. *)
Record CertificateOptions : Type := NewCertOpts {
  ExpirationDate : time.Time;
  DNSNames : list string
}.

(** [github.com/clastix/capsule/pkg/cert]: only its signatures are used
    here.  [Entropy] stands for the random source read by the generators;
    [ValidateCertificate] reads the clock, which is made an argument.
    [CACertificatePem] also returns an error, which the controller
    discards. *)
Class CertPackage : Type := {
  Entropy : Type;
  CapsuleCA : Type;
  Certificate : Type;
  PrivateKey : Type;
  GenerateCertificateAuthority : Entropy -> Error + CapsuleCA;
  GenerateCertificate :
    Entropy -> CapsuleCA -> CertificateOptions -> Error + (Bytes * Bytes);
  CACertificatePem : CapsuleCA -> Bytes;
  GetCertificateWithPrivateKeyFromBytes :
    Bytes -> Bytes -> Error + (Certificate * PrivateKey);
  GetCertificateFromBytes : Bytes -> Error + Certificate;
  ValidateCertificate :
    time.Time -> Certificate -> PrivateKey -> time.Duration -> option Error;
  NotAfter : Certificate -> time.Time
}.

(** [configuration.Configuration]: the values its methods return during
    one pass. *)
Record Configuration : Type := mkConfiguration {
  GenerateCertificates : bool;
  TLSSecretName : string;
  ValidatingWebhookConfigurationName : string;
  MutatingWebhookConfigurationName : string;
  TenantCRDName : string
}.

Record Reconciler : Type := mkReconciler {
  rNamespace : string;
  rConfiguration : Configuration
}.

Section RotationDecision.

Context `{CertPackage}.

(** [Reconciler.shouldUpdateCertificate] (manager.go, lines 185-210);
    [now] is the clock reading taken inside [cert.ValidateCertificate]. *)
Definition shouldUpdateCertificate
    (r : Reconciler) (now : time.Time) (secret : corev1.Secret) : bool :=
  if negb (GenerateCertificates (rConfiguration r)) then false
  else
    match corev1.Data secret !! corev1.ServiceAccountRootCAKey with
    | None => true
    | Some _ =>
      match GetCertificateWithPrivateKeyFromBytes
              (index (corev1.Data secret) corev1.TLSCertKey)
              (index (corev1.Data secret) corev1.TLSPrivateKeyKey) with
      | inl _ => true
      | inr (certificate, key) =>
        match ValidateCertificate now certificate key
                certificateExpirationThreshold with
        | Some _ => true
        | None => false
        end
      end
    end.

End RotationDecision.

(** ** Admission webhook configurations and the CRD *)

Module admissionregistrationv1.

Record ServiceReference : Type := mkServiceReference {
  SvcNamespace : string;
  SvcName : string;
  SvcPath : option string;
  SvcPort : option Z
}.

#[global] Instance ServiceReference_eq_dec : EqDecision ServiceReference.
Proof. solve_decision. Defined.

(** [URL] and [Service] are pointers: exactly one of them is set on a valid
    entry, [Service] for the internal service and [URL] for an external
    endpoint. *)
Record WebhookClientConfig : Type := mkWebhookClientConfig {
  URL : option string;
  Service : option ServiceReference;
  CABundle : Bytes
}.

#[global] Instance WebhookClientConfig_eq_dec : EqDecision WebhookClientConfig.
Proof. solve_decision. Defined.

Definition withCABundle (b : Bytes) (c : WebhookClientConfig) : WebhookClientConfig :=
  mkWebhookClientConfig (URL c) (Service c) b.

Record ValidatingWebhook : Type := mkValidatingWebhook {
  VName : string;
  VClientConfig : WebhookClientConfig;
  VRules : list string;
  VFailurePolicy : option string;
  VSideEffects : option string;
  VTimeoutSeconds : option Z;
  VAdmissionReviewVersions : list string
}.

#[global] Instance ValidatingWebhook_eq_dec : EqDecision ValidatingWebhook.
Proof. solve_decision. Defined.

Definition withVClientConfig (c : WebhookClientConfig) (w : ValidatingWebhook) : ValidatingWebhook :=
  mkValidatingWebhook (VName w) c (VRules w) (VFailurePolicy w)
    (VSideEffects w) (VTimeoutSeconds w) (VAdmissionReviewVersions w).

Record MutatingWebhook : Type := mkMutatingWebhook {
  MName : string;
  MClientConfig : WebhookClientConfig;
  MRules : list string;
  MFailurePolicy : option string;
  MSideEffects : option string;
  MTimeoutSeconds : option Z;
  MAdmissionReviewVersions : list string;
  MReinvocationPolicy : option string
}.

#[global] Instance MutatingWebhook_eq_dec : EqDecision MutatingWebhook.
Proof. solve_decision. Defined.

Definition withMClientConfig (c : WebhookClientConfig) (w : MutatingWebhook) : MutatingWebhook :=
  mkMutatingWebhook (MName w) c (MRules w) (MFailurePolicy w)
    (MSideEffects w) (MTimeoutSeconds w) (MAdmissionReviewVersions w)
    (MReinvocationPolicy w).

Record ValidatingWebhookConfiguration : Type := mkValidatingWebhookConfiguration {
  VMeta : metav1.ObjectMeta;
  VWebhooks : list ValidatingWebhook
}.

#[global] Instance ValidatingWebhookConfiguration_eq_dec :
  EqDecision ValidatingWebhookConfiguration.
Proof. solve_decision. Defined.

Record MutatingWebhookConfiguration : Type := mkMutatingWebhookConfiguration {
  MMeta : metav1.ObjectMeta;
  MWebhooks : list MutatingWebhook
}.

#[global] Instance MutatingWebhookConfiguration_eq_dec :
  EqDecision MutatingWebhookConfiguration.
Proof. solve_decision. Defined.

End admissionregistrationv1.

Module apiextensionsv1.

Record ServiceReference : Type := mkServiceReference {
  SvcNamespace : string;
  SvcName : string;
  SvcPath : option string;
  SvcPort : option Z
}.

#[global] Instance ServiceReference_eq_dec : EqDecision ServiceReference.
Proof. solve_decision. Defined.

Record WebhookClientConfig : Type := mkWebhookClientConfig {
  URL : option string;
  Service : option ServiceReference;
  CABundle : Bytes
}.

#[global] Instance WebhookClientConfig_eq_dec : EqDecision WebhookClientConfig.
Proof. solve_decision. Defined.

Record WebhookConversion : Type := mkWebhookConversion {
  ClientConfig : option WebhookClientConfig;
  ConversionReviewVersions : list string
}.

#[global] Instance WebhookConversion_eq_dec : EqDecision WebhookConversion.
Proof. solve_decision. Defined.

Record CustomResourceConversion : Type := mkCustomResourceConversion {
  Strategy : string;
  Webhook : option WebhookConversion
}.

#[global] Instance CustomResourceConversion_eq_dec : EqDecision CustomResourceConversion.
Proof. solve_decision. Defined.

(** The group, names, scope and versions of the definition are opaque to
    the controller and kept as one field. *)
Record CustomResourceDefinitionSpec : Type := mkCustomResourceDefinitionSpec {
  Definitions : string;
  Conversion : option CustomResourceConversion
}.

#[global] Instance CustomResourceDefinitionSpec_eq_dec :
  EqDecision CustomResourceDefinitionSpec.
Proof. solve_decision. Defined.

Record CustomResourceDefinition : Type := mkCustomResourceDefinition {
  CRDMeta : metav1.ObjectMeta;
  Spec : CustomResourceDefinitionSpec
}.

#[global] Instance CustomResourceDefinition_eq_dec : EqDecision CustomResourceDefinition.
Proof. solve_decision. Defined.

Definition withConversion (c : option CustomResourceConversion)
    (crd : CustomResourceDefinition) : CustomResourceDefinition :=
  mkCustomResourceDefinition (CRDMeta crd)
    (mkCustomResourceDefinitionSpec (Definitions (Spec crd)) c).

End apiextensionsv1.

(** ** The cluster *)

(** Requests that leave the controller: the two generation requests to the
    [cert] package and every write sent to the API server, in the order in
    which they are issued.  The journal is instrumentation: no modelled
    code reads it. *)
Inductive Call : Type :=
| CallGenerateCertificateAuthority
| CallGenerateCertificate (opts : CertificateOptions)
| CallCreate (kind : Kind) (key : NamespacedName)
| CallUpdate (kind : Kind) (key : NamespacedName).

Record World : Type := mkWorld {
  secrets : gmap NamespacedName corev1.Secret;
  validatingWebhookConfigurations :
    gmap NamespacedName admissionregistrationv1.ValidatingWebhookConfiguration;
  mutatingWebhookConfigurations :
    gmap NamespacedName admissionregistrationv1.MutatingWebhookConfiguration;
  customResourceDefinitions :
    gmap NamespacedName apiextensionsv1.CustomResourceDefinition;
  pods : gmap NamespacedName corev1.Pod;
  journal : list Call
}.

#[global] Instance CertificateOptions_eq_dec : EqDecision CertificateOptions.
Proof. solve_decision. Defined.

#[global] Instance Call_eq_dec : EqDecision Call.
Proof. solve_decision. Defined.

#[global] Instance World_eq_dec : EqDecision World.
Proof. solve_decision. Defined.

(** ** State and error monad *)

Definition M (A : Type) : Type := World -> (Error + A) * World.

Definition ret {A : Type} (a : A) : M A := fun w => (inr a, w).

Definition fail {A : Type} (e : Error) : M A := fun w => (inl e, w).

Definition bind {A B : Type} (m : M A) (k : A -> M B) : M B :=
  fun w =>
    match m w with
    | (inl e, w') => (inl e, w')
    | (inr a, w') => k a w'
    end.

Notation "'do' x <- m ; k" := (bind m (fun x => k))
  (at level 10, x name, m at level 100, k at level 200).
Notation "'do' ' p <- m ; k" := (bind m (fun x => match x with p => k end))
  (at level 10, p pattern, m at level 100, k at level 200).
Notation "m ;; k" := (bind m (fun _ => k))
  (at level 100, k at level 200, right associativity).

Definition liftE {A : Type} (r : Error + A) : M A := fun w => (r, w).

Definition record (c : Call) : M unit :=
  fun w =>
    (inr tt,
     mkWorld (secrets w) (validatingWebhookConfigurations w)
       (mutatingWebhookConfigurations w) (customResourceDefinitions w)
       (pods w) (journal w ++ [c])).

(** ** The API client *)

(** [client.Object]: what the client needs from a resource kind. *)
Class Object (A : Type) : Type := {
  GetObjectKind : Kind;
  GetObjectMeta : A -> metav1.ObjectMeta;
  objects : World -> gmap NamespacedName A;
  setObjects : gmap NamespacedName A -> World -> World
}.

Arguments GetObjectKind A {_}.

#[global] Instance Secret_Object : Object corev1.Secret := {
  GetObjectKind := KSecret;
  GetObjectMeta := corev1.SecretMeta;
  objects := secrets;
  setObjects m w :=
    mkWorld m (validatingWebhookConfigurations w)
      (mutatingWebhookConfigurations w) (customResourceDefinitions w)
      (pods w) (journal w)
}.

#[global] Instance ValidatingWebhookConfiguration_Object :
  Object admissionregistrationv1.ValidatingWebhookConfiguration := {
  GetObjectKind := KValidatingWebhookConfiguration;
  GetObjectMeta := admissionregistrationv1.VMeta;
  objects := validatingWebhookConfigurations;
  setObjects m w :=
    mkWorld (secrets w) m (mutatingWebhookConfigurations w)
      (customResourceDefinitions w) (pods w) (journal w)
}.

#[global] Instance MutatingWebhookConfiguration_Object :
  Object admissionregistrationv1.MutatingWebhookConfiguration := {
  GetObjectKind := KMutatingWebhookConfiguration;
  GetObjectMeta := admissionregistrationv1.MMeta;
  objects := mutatingWebhookConfigurations;
  setObjects m w :=
    mkWorld (secrets w) (validatingWebhookConfigurations w) m
      (customResourceDefinitions w) (pods w) (journal w)
}.

#[global] Instance CustomResourceDefinition_Object :
  Object apiextensionsv1.CustomResourceDefinition := {
  GetObjectKind := KCustomResourceDefinition;
  GetObjectMeta := apiextensionsv1.CRDMeta;
  objects := customResourceDefinitions;
  setObjects m w :=
    mkWorld (secrets w) (validatingWebhookConfigurations w)
      (mutatingWebhookConfigurations w) m (pods w) (journal w)
}.

#[global] Instance Pod_Object : Object corev1.Pod := {
  GetObjectKind := KPod;
  GetObjectMeta := corev1.PodMeta;
  objects := pods;
  setObjects m w :=
    mkWorld (secrets w) (validatingWebhookConfigurations w)
      (mutatingWebhookConfigurations w) (customResourceDefinitions w)
      m (journal w)
}.

(** [client.ObjectKeyFromObject] *)
Definition ObjectKeyFromObject {A : Type} `{Object A} (obj : A) : NamespacedName :=
  (metav1.Namespace (GetObjectMeta obj), metav1.Name (GetObjectMeta obj)).

(** [Client.Get]: the stored object, or a not-found status. *)
Definition Get {A : Type} `{Object A} (key : NamespacedName) : M A :=
  fun w =>
    match objects w !! key with
    | Some obj => (inr obj, w)
    | None => (inl (StatusNotFound (GetObjectKind A) key), w)
    end.

(** [Client.Update]: replaces the stored object of the same key.  No other
    writer runs during a pass in this model, so the version read is the
    version stored and the server reports no conflict. *)
Definition Update {A : Type} `{Object A} (obj : A) : M unit :=
  let key := ObjectKeyFromObject obj in
  record (CallUpdate (GetObjectKind A) key) ;;
  fun w =>
    match objects w !! key with
    | Some _ => (inr tt, setObjects (<[key := obj]> (objects w)) w)
    | None => (inl (StatusNotFound (GetObjectKind A) key), w)
    end.

(** [Client.Create] *)
Definition Create {A : Type} `{Object A} (obj : A) : M unit :=
  let key := ObjectKeyFromObject obj in
  record (CallCreate (GetObjectKind A) key) ;;
  fun w =>
    match objects w !! key with
    | Some _ => (inl (StatusAlreadyExists (GetObjectKind A) key), w)
    | None => (inr tt, setObjects (<[key := obj]> (objects w)) w)
    end.

(** [Client.List] of pods with [client.MatchingLabels]: every pod, in any
    namespace, whose labels include the selector. *)
Definition ListPods (selector : gmap string string) : M (list corev1.Pod) :=
  fun w =>
    (inr (filter (fun p => selector ⊆ metav1.Labels (corev1.PodMeta p))
            (map snd (map_to_list (pods w)))), w).

(** ** [controllerutil.CreateOrUpdate] *)

Inductive OperationResult : Type :=
| OperationResultNone
| OperationResultCreated
| OperationResultUpdated.

Definition mutate {A : Type} `{Object A}
    (f : A -> Error + A) (key : NamespacedName) (obj : A) : Error + A :=
  match f obj with
  | inl e => inl e
  | inr obj' =>
    if decide (key = ObjectKeyFromObject obj') then inr obj'
    else inl (Errorf "MutateFn cannot mutate object name and/or object namespace")
  end.

Definition CreateOrUpdate {A : Type} `{Object A} `{EqDecision A}
    (obj : A) (f : A -> Error + A) : M OperationResult :=
  let key := ObjectKeyFromObject obj in
  fun w =>
    match Get key w with
    | (inl err, w1) =>
      if IsNotFound err then
        (do obj' <- liftE (mutate f key obj);
         Create obj' ;;
         ret OperationResultCreated) w1
      else (inl err, w1)
    | (inr existing, w1) =>
        (do obj' <- liftE (mutate f key existing);
         if decide (existing = obj') then ret OperationResultNone
         else (Update obj' ;; ret OperationResultUpdated)) w1
    end.

(** ** [retry.RetryOnConflict] *)

(** [retry.DefaultRetry] makes up to 5 attempts, [retry.DefaultBackoff] up
    to 4; the waiting between attempts is not modelled. *)
Definition DefaultRetry : nat := 5.
Definition DefaultBackoff : nat := 4.

(** One attempt of [fn], run again while it fails with a conflict and
    [retries] remain; the last conflict is returned when they run out. *)
Fixpoint attempt (retries : nat) (fn : M unit) (w : World) {struct retries}
    : (Error + unit) * World :=
  match fn w with
  | (inl err, w') =>
    if IsConflict err then
      match retries with
      | S n => attempt n fn w'
      | O => (inl err, w')
      end
    else (inl err, w')
  | (inr tt, w') => (inr tt, w')
  end.

Definition RetryOnConflict (steps : nat) (fn : M unit) : M unit :=
  match steps with
  | O => ret tt
  | S n => attempt n fn
  end.

(** ** [errgroup.Group] *)

(** The group is created with [new(errgroup.Group)]: it carries no context
    of its own, every function handed to [Go] runs to its end, and [Wait]
    returns the first error.  The tasks of a pass write to pairwise
    different objects; they are run here in the order of their [Go] calls,
    which is one of the schedules the runtime may pick. *)
Fixpoint runGroup (tasks : list (M unit)) (first : option Error) (w : World)
    : (Error + unit) * World :=
  match tasks with
  | [] => (match first with Some e => inl e | None => inr tt end, w)
  | t :: ts =>
    match t w with
    | (inl e, w') =>
      runGroup ts (match first with Some e0 => Some e0 | None => Some e end) w'
    | (inr tt, w') => runGroup ts first w'
    end
  end.

Definition GoWait (tasks : list (M unit)) : M unit := runGroup tasks None.

(** ** [for i, w := range webhooks] *)

(** The loops of the two webhook updates: the entry at each index is read
    and, when [internal] holds of it, replaced in place by [set] of it. *)
Definition rangeStep {W : Type} (internal : W -> bool) (set : W -> W)
    (ws : list W) (i : nat) : list W :=
  match ws !! i with
  | Some w => if internal w then <[i := set w]> ws else ws
  | None => ws
  end.

Definition rangeUpdate {W : Type} (internal : W -> bool) (set : W -> W)
    (ws : list W) : list W :=
  fold_left (rangeStep internal set) (seq 0 (length ws)) ws.

(** [reconcile.Result] *)
Record Result : Type := mkResult {
  Requeue : bool;
  RequeueAfter : time.Duration
}.

#[global] Instance Result_eq_dec : EqDecision Result.
Proof. solve_decision. Defined.

Definition emptyResult : Result := mkResult false 0.

(** [Get] into a zero-valued object, tolerating a not-found status (the
    object then keeps its zero value). *)
Definition GetOrZero {A : Type} `{Object A} (zero : A) (key : NamespacedName) : M A :=
  fun w =>
    match Get key w with
    | (inl err, w') =>
      if IsNotFound err then (inr zero, w') else (inl err, w')
    | (inr obj, w') => (inr obj, w')
    end.

Section Reconciliation.

Context `{CertPackage}.

(** [t.Format(time.RFC3339Nano)] of the standard library. *)
Variable Format : time.Time -> string.

(** What a pass reads from outside the cluster: the process environment,
    the random source, and the clock at each of its call sites. *)
Record Ambient : Type := mkAmbient {
  Hostname : string;
  Getenv_NAMESPACE : string;
  rand : Entropy;
  nowValidate : time.Time;
  nowIssue : time.Time;
  nowPod : NamespacedName -> time.Time;
  nowRequeue : time.Time
}.

(** [Reconciler.updateCustomResourceDefinition] (lines 214-246) *)
Definition conversion (r : Reconciler) (caBundle : Bytes)
    : apiextensionsv1.CustomResourceConversion :=
  apiextensionsv1.mkCustomResourceConversion "Webhook"
    (Some (apiextensionsv1.mkWebhookConversion
       (Some (apiextensionsv1.mkWebhookClientConfig None
          (Some (apiextensionsv1.mkServiceReference
             (rNamespace r) "capsule-webhook-service" (Some "/convert") (Some 443)))
          caBundle))
       ["v1alpha1"; "v1beta1"])).

Definition updateCustomResourceDefinition (r : Reconciler) (caBundle : Bytes) : M unit :=
  RetryOnConflict DefaultBackoff
    (do crd <- Get (A := apiextensionsv1.CustomResourceDefinition)
                 ("", "tenants.capsule.clastix.io");
     CreateOrUpdate crd
       (fun crd => inr (apiextensionsv1.withConversion (Some (conversion r caBundle)) crd)) ;;
     ret tt).

(** [Reconciler.updateValidatingWebhookConfiguration] (lines 249-267) *)
Definition validatingInternal (w : admissionregistrationv1.ValidatingWebhook) : bool :=
  bool_decide (is_Some (admissionregistrationv1.Service
                          (admissionregistrationv1.VClientConfig w))).

Definition validatingSetCABundle (caBundle : Bytes)
    (w : admissionregistrationv1.ValidatingWebhook)
    : admissionregistrationv1.ValidatingWebhook :=
  admissionregistrationv1.withVClientConfig
    (admissionregistrationv1.withCABundle caBundle
       (admissionregistrationv1.VClientConfig w)) w.

Definition updateValidatingWebhookConfiguration (r : Reconciler) (caBundle : Bytes) : M unit :=
  RetryOnConflict DefaultBackoff
    (do vw <- Get (A := admissionregistrationv1.ValidatingWebhookConfiguration)
                ("", ValidatingWebhookConfigurationName (rConfiguration r));
     Update (admissionregistrationv1.mkValidatingWebhookConfiguration
               (admissionregistrationv1.VMeta vw)
               (rangeUpdate validatingInternal (validatingSetCABundle caBundle)
                  (admissionregistrationv1.VWebhooks vw)))).

(** [Reconciler.updateMutatingWebhookConfiguration] (lines 270-288) *)
Definition mutatingInternal (w : admissionregistrationv1.MutatingWebhook) : bool :=
  bool_decide (is_Some (admissionregistrationv1.Service
                          (admissionregistrationv1.MClientConfig w))).

Definition mutatingSetCABundle (caBundle : Bytes)
    (w : admissionregistrationv1.MutatingWebhook)
    : admissionregistrationv1.MutatingWebhook :=
  admissionregistrationv1.withMClientConfig
    (admissionregistrationv1.withCABundle caBundle
       (admissionregistrationv1.MClientConfig w)) w.

Definition updateMutatingWebhookConfiguration (r : Reconciler) (caBundle : Bytes) : M unit :=
  RetryOnConflict DefaultBackoff
    (do mw <- Get (A := admissionregistrationv1.MutatingWebhookConfiguration)
                ("", MutatingWebhookConfigurationName (rConfiguration r));
     Update (admissionregistrationv1.mkMutatingWebhookConfiguration
               (admissionregistrationv1.MMeta mw)
               (rangeUpdate mutatingInternal (mutatingSetCABundle caBundle)
                  (admissionregistrationv1.MWebhooks mw)))).

(** [Reconciler.updateOperatorPod] (lines 290-315) *)
Definition zeroPod : corev1.Pod := corev1.mkPod metav1.zero "".

Definition markUpdated (stamp : string) (p : corev1.Pod) : corev1.Pod :=
  let annotations :=
    match metav1.Annotations (corev1.PodMeta p) with
    | None => ∅
    | Some a => a
    end in
  corev1.withPodMeta
    (metav1.withAnnotations
       (Some (<[PodUpdateAnnotationName := stamp]> annotations))
       (corev1.PodMeta p)) p.

Definition updateOperatorPod (a : Ambient) (pod : corev1.Pod) : M unit :=
  let key := (metav1.Namespace (corev1.PodMeta pod), metav1.Name (corev1.PodMeta pod)) in
  RetryOnConflict DefaultRetry
    (do p <- GetOrZero zeroPod key;
     Update (markUpdated (Format (nowPod a key)) p)).

(** [Reconciler.getOperatorPods] (lines 317-336) *)
Definition getOperatorPods (a : Ambient) : M (list corev1.Pod) :=
  do leaderPod <- Get (A := corev1.Pod) (Getenv_NAMESPACE a, Hostname a);
  ListPods (metav1.Labels (corev1.PodMeta leaderPod)).

(** The requeue delay of line 175. *)
Definition requeueAfter (notAfter now : time.Time) : time.Duration :=
  time.sub
    (time.mul (wrap64 (time.Unix notAfter - time.Unix now)) time.Second)
    certificateReconciliationThreshold.

(** The regeneration branch of [Reconcile] (lines 89-124): the secret as
    the rest of the pass sees it. *)
Definition regenerate (r : Reconciler) (a : Ambient) (certSecret : corev1.Secret)
    : M corev1.Secret :=
  record CallGenerateCertificateAuthority ;;
  do ca <- liftE (GenerateCertificateAuthority (rand a));
  let opts :=
    NewCertOpts (time.Add (nowIssue a) certificateValidity)
      ["capsule-webhook-service." +:+ rNamespace r +:+ ".svc"] in
  record (CallGenerateCertificate opts) ;;
  do '(crt, key) <- liftE (GenerateCertificate (rand a) ca opts);
  let caCrt := CACertificatePem ca in
  let certSecret' :=
    corev1.withData
      (<[corev1.TLSCertKey := crt]>
         (<[corev1.TLSPrivateKeyKey := key]>
            (<[corev1.ServiceAccountRootCAKey := caCrt]> ∅)))
      certSecret in
  let t := corev1.mkSecret (corev1.SecretMeta certSecret) ∅ "" in
  CreateOrUpdate t (fun t => inr (corev1.withData (corev1.Data certSecret') t)) ;;
  ret certSecret'.

(** The tasks handed to the group (lines 142-161). *)
Definition tasks (r : Reconciler) (a : Ambient) (caBundle : Bytes)
    (operatorPods : list corev1.Pod) : list (M unit) :=
  [ updateMutatingWebhookConfiguration r caBundle;
    updateValidatingWebhookConfiguration r caBundle;
    updateCustomResourceDefinition r caBundle ]
  ++ map (updateOperatorPod a) operatorPods.

(** The second half of [Reconcile] (lines 127-182): extraction of the CA
    bundle, fleet discovery, the group of updates, and the requeue. *)
Definition propagate (r : Reconciler) (a : Ambient) (certSecret : corev1.Secret)
    : M Result :=
  match corev1.Data certSecret !! corev1.ServiceAccountRootCAKey with
  | None =>
    fail (Errorf ("missing " +:+ corev1.ServiceAccountRootCAKey +:+ " field in "
                  +:+ TLSSecretName (rConfiguration r) +:+ " secret"))
  | Some caBundle =>
    do operatorPods <- getOperatorPods a;
    GoWait (tasks r a caBundle operatorPods) ;;
    if GenerateCertificates (rConfiguration r) then
      do certificate <-
        liftE (GetCertificateFromBytes (index (corev1.Data certSecret) corev1.TLSCertKey));
      ret (mkResult true (requeueAfter (NotAfter certificate) (nowRequeue a)))
    else ret emptyResult
  end.

(** The decision step of [Reconcile] (lines 88-125): regenerate, or keep
    the secret as read. *)
Definition decisionStep (r : Reconciler) (a : Ambient) (certSecret : corev1.Secret)
    : M corev1.Secret :=
  if shouldUpdateCertificate r (nowValidate a) certSecret
  then regenerate r a certSecret
  else ret certSecret.

(** [Reconciler.Reconcile] (lines 77-183) *)
Definition Reconcile (r : Reconciler) (a : Ambient) (request : NamespacedName) : M Result :=
  do certSecret <- Get (A := corev1.Secret) request;
  do certSecret <- decisionStep r a certSecret;
  propagate r a certSecret.

End Reconciliation.

(** ** Well-formed clusters *)

(** The API server stores every object under its own namespace and name. *)
Definition keyed {A : Type} `{Object A} (m : gmap NamespacedName A) : Prop :=
  map_Forall (fun k obj => ObjectKeyFromObject obj = k) m.

Record WellKeyed (w : World) : Prop := mkWellKeyed {
  keyed_secrets : keyed (secrets w);
  keyed_validating : keyed (validatingWebhookConfigurations w);
  keyed_mutating : keyed (mutatingWebhookConfigurations w);
  keyed_crds : keyed (customResourceDefinitions w);
  keyed_pods : keyed (pods w)
}.

(** Two worlds holding the same objects (their journals may differ). *)
Definition sameObjects (w w' : World) : Prop :=
  secrets w' = secrets w /\
  validatingWebhookConfigurations w' = validatingWebhookConfigurations w /\
  mutatingWebhookConfigurations w' = mutatingWebhookConfigurations w /\
  customResourceDefinitions w' = customResourceDefinitions w /\
  pods w' = pods w.


(** Writes of the propagation and notification steps: any write to an
    object other than a secret. *)
Definition isPropagation (c : Call) : bool :=
  match c with
  | CallCreate k _ | CallUpdate k _ => negb (bool_decide (k = KSecret))
  | _ => false
  end.

(** * Vocabulary of the properties *)

(** What the range loop makes of one entry. *)
Definition rangeEntry {W : Type} (internal : W -> bool) (set : W -> W) (w : W) : W :=
  if internal w then set w else w.

(** [frame R m]: every run of [m], failed or not, takes a world to an
    [R]-related world. *)
Definition frame {A : Type} (R : World -> World -> Prop) (m : M A) : Prop :=
  forall w res w', m w = (res, w') -> R w w'.

(** Well-keyedness is kept by every write. *)
Definition keepsKeyed (w w' : World) : Prop := WellKeyed w -> WellKeyed w'.

(** What the propagation and notification tasks may do: they leave the
    secrets alone and send only writes to objects other than secrets. *)
Definition propagates (w w' : World) : Prop :=
  secrets w' = secrets w /\
  exists cs, journal w' = journal w ++ cs /\
             Forall (fun c => isPropagation c = true) cs.

(** What the regeneration step may do: it touches nothing but the secrets
    and sends no propagation write. *)
Definition persists (w w' : World) : Prop :=
  validatingWebhookConfigurations w' = validatingWebhookConfigurations w /\
  mutatingWebhookConfigurations w' = mutatingWebhookConfigurations w /\
  customResourceDefinitions w' = customResourceDefinitions w /\
  pods w' = pods w /\
  exists cs, journal w' = journal w ++ cs /\
             Forall (fun c => isPropagation c = false) cs.

(** The keys under which the three consumer resources are read. *)
Definition validatingKey (r : Reconciler) : NamespacedName :=
  ("", ValidatingWebhookConfigurationName (rConfiguration r)).

Definition mutatingKey (r : Reconciler) : NamespacedName :=
  ("", MutatingWebhookConfigurationName (rConfiguration r)).

Definition tenantsKey : NamespacedName := ("", "tenants.capsule.clastix.io").

(** The objects the three propagation updates submit. *)
Definition validatingUpdated (caBundle : Bytes)
    (vw : admissionregistrationv1.ValidatingWebhookConfiguration)
    : admissionregistrationv1.ValidatingWebhookConfiguration :=
  admissionregistrationv1.mkValidatingWebhookConfiguration
    (admissionregistrationv1.VMeta vw)
    (rangeUpdate validatingInternal (validatingSetCABundle caBundle)
       (admissionregistrationv1.VWebhooks vw)).

Definition mutatingUpdated (caBundle : Bytes)
    (mw : admissionregistrationv1.MutatingWebhookConfiguration)
    : admissionregistrationv1.MutatingWebhookConfiguration :=
  admissionregistrationv1.mkMutatingWebhookConfiguration
    (admissionregistrationv1.MMeta mw)
    (rangeUpdate mutatingInternal (mutatingSetCABundle caBundle)
       (admissionregistrationv1.MWebhooks mw)).

Definition crdUpdated (r : Reconciler) (caBundle : Bytes)
    (crd : apiextensionsv1.CustomResourceDefinition)
    : apiextensionsv1.CustomResourceDefinition :=
  apiextensionsv1.withConversion (Some (conversion r caBundle)) crd.

(** The world with more calls in its journal and the same objects. *)
Definition logged (cs : list Call) (w : World) : World :=
  mkWorld (secrets w) (validatingWebhookConfigurations w)
    (mutatingWebhookConfigurations w) (customResourceDefinitions w)
    (pods w) (journal w ++ cs).

(** The three fields of the trust secret. *)
Definition trustData (crt key caCrt : Bytes) : gmap string Bytes :=
  <[corev1.TLSCertKey := crt]>
    (<[corev1.TLSPrivateKeyKey := key]>
       (<[corev1.ServiceAccountRootCAKey := caCrt]> ∅)).

(** The pods that [getOperatorPods] lists. *)
Definition operatorPodsOf (leaderPod : corev1.Pod)
    (m : gmap NamespacedName corev1.Pod) : list corev1.Pod :=
  filter (fun p => metav1.Labels (corev1.PodMeta leaderPod)
                     ⊆ metav1.Labels (corev1.PodMeta p))
    (map snd (map_to_list m)).

(** Requests other than the creation of an object. *)
Definition notCreate (c : Call) : bool :=
  match c with
  | CallCreate _ _ => false
  | _ => true
  end.

(** Two worlds holding objects under the same names, kind by kind. *)
Definition sameKeys (w w' : World) : Prop :=
  dom (secrets w') = dom (secrets w) /\
  dom (validatingWebhookConfigurations w') = dom (validatingWebhookConfigurations w) /\
  dom (mutatingWebhookConfigurations w') = dom (mutatingWebhookConfigurations w) /\
  dom (customResourceDefinitions w') = dom (customResourceDefinitions w) /\
  dom (pods w') = dom (pods w).

(** What a pass may do to a well-keyed cluster: it keeps it well-keyed,
    adds and removes no object, and sends no creation. *)
Definition steady (w w' : World) : Prop :=
  WellKeyed w ->
  WellKeyed w' /\ sameKeys w w' /\
  exists cs, journal w' = journal w ++ cs /\
             Forall (fun c => notCreate c = true) cs.


Section Vocabulary.

Context `{CertPackage}.
Variable Format : time.Time -> string.

(** The options of the leaf certificate request (line 96). *)
Definition leafOptions (r : Reconciler) (a : Ambient) : CertificateOptions :=
  NewCertOpts (time.Add (nowIssue a) certificateValidity)
    ["capsule-webhook-service." +:+ rNamespace r +:+ ".svc"].

(** The annotated pod the notifier writes back for [p]. *)
Definition marked (a : Ambient) (p : corev1.Pod) : corev1.Pod :=
  markUpdated (Format (nowPod a (ObjectKeyFromObject p))) p.

(** The pods after the pods of [l] were annotated one after the other. *)
Definition notified (a : Ambient) (l : list corev1.Pod)
    (m : gmap NamespacedName corev1.Pod) : gmap NamespacedName corev1.Pod :=
  foldl (fun m p => <[ObjectKeyFromObject p := marked a p]> m) m l.

(** The key of the pod discovery starts from: named after the host, in the
    namespace given by the NAMESPACE variable. *)
Definition leaderKey (a : Ambient) : NamespacedName :=
  (Getenv_NAMESPACE a, Hostname a).

(** What a pass returns once its updates went through. *)
Definition outcome (r : Reconciler) (a : Ambient) (certSecret : corev1.Secret)
    : Error + Result :=
  if GenerateCertificates (rConfiguration r) then
    match GetCertificateFromBytes
            (index (corev1.Data certSecret) corev1.TLSCertKey) with
    | inl e => inl e
    | inr certificate =>
      inr (mkResult true (requeueAfter (NotAfter certificate) (nowRequeue a)))
    end
  else inr emptyResult.

End Vocabulary.

(** ** A small cluster to run the model on *)

Module Sample.

(** A stand-in for the [cert] package: a certificate is the decimal text of
    its expiry instant, the entropy says which generation step fails, and
    validation only checks the time left against the threshold. *)
Inductive Luck : Type := Lucky | CAFails | LeafFails.

Definition encode (z : Z) : Bytes :=
  list_byte_of_string (DecimalString.NilZero.string_of_int (Z.to_int z)).

Definition decode (b : Bytes) : Error + Z :=
  match DecimalString.NilZero.int_of_string (string_of_list_byte b) with
  | Some i => inr (Z.of_int i)
  | None => inl (CertError "cannot decode certificate")
  end.

#[local] Instance pkg : CertPackage := {
  Entropy := Luck;
  CapsuleCA := Bytes;
  Certificate := time.Time;
  PrivateKey := Bytes;
  GenerateCertificateAuthority l :=
    match l with
    | CAFails => inl (CertError "cannot generate CA")
    | _ => inr (list_byte_of_string "CA")
    end;
  GenerateCertificate l ca opts :=
    match l with
    | LeafFails => inl (CertError "cannot generate certificate")
    | _ => inr (encode (ExpirationDate opts), list_byte_of_string "KEY")
    end;
  CACertificatePem ca := ca;
  GetCertificateWithPrivateKeyFromBytes crt key :=
    match decode crt with
    | inl e => inl e
    | inr t => inr (t, key)
    end;
  GetCertificateFromBytes := decode;
  ValidateCertificate now crt key threshold :=
    if bool_decide (crt - now < threshold)
    then Some (CertError "certificate expires soon")
    else None;
  NotAfter crt := crt
}.

(** The RFC 3339 layout with nanoseconds, for instants from year 0 to year
    9999 read in UTC: the date by the civil-calendar computation, the
    fraction of the second without its trailing zeros. *)
Definition decimal (z : Z) : string :=
  DecimalString.NilZero.string_of_int (Z.to_int z).

Fixpoint zeros (n : nat) : string :=
  match n with
  | O => ""
  | S n => "0" +:+ zeros n
  end.

Definition padded (width : nat) (z : Z) : string :=
  let s := decimal z in zeros (width - String.length s) +:+ s.

Fixpoint trimZeros (s : string) : string :=
  match s with
  | EmptyString => EmptyString
  | String c rest =>
    match trimZeros rest with
    | EmptyString => if Ascii.eqb c "0"%char then EmptyString else String c EmptyString
    | rest' => String c rest'
    end
  end.

Definition civil (days : Z) : Z * Z * Z :=
  let z := days + 719468 in
  let era := z / 146097 in
  let doe := z - era * 146097 in
  let yoe := (doe - doe / 1460 + doe / 36524 - doe / 146096) / 365 in
  let doy := doe - (365 * yoe + yoe / 4 - yoe / 100) in
  let mp := (5 * doy + 2) / 153 in
  let d := doy - (153 * mp + 2) / 5 + 1 in
  let m := if Z.ltb mp 10 then mp + 3 else mp - 9 in
  let y := yoe + era * 400 + (if Z.leb m 2 then 1 else 0) in
  (y, m, d).

Definition Format (t : time.Time) : string :=
  let secs := time.Unix t in
  let nanos := t mod time.Second in
  let '(y, m, d) := civil (secs / 86400) in
  let sod := secs mod 86400 in
  let fraction := trimZeros (padded 9 nanos) in
  padded 4 y +:+ "-" +:+ padded 2 m +:+ "-" +:+ padded 2 d +:+ "T"
  +:+ padded 2 (sod / 3600) +:+ ":" +:+ padded 2 (sod mod 3600 / 60) +:+ ":"
  +:+ padded 2 (sod mod 60)
  +:+ (if String.eqb fraction "" then "" else "." +:+ fraction) +:+ "Z".

Definition day : Z := 24 * time.Hour.

Definition config (generate : bool) : Configuration :=
  mkConfiguration generate "capsule-tls"
    "capsule-validating-webhook-configuration"
    "capsule-mutating-webhook-configuration"
    "tenants.capsule.clastix.io".

Definition reconciler (generate : bool) : Reconciler :=
  mkReconciler "capsule-system" (config generate).

Definition request : NamespacedName := ("capsule-system", "capsule-tls").

Definition ambient (l : Luck) (now : time.Time) : Ambient :=
  mkAmbient "capsule-0" "capsule-system" l now now (fun _ => now) now.

Definition meta (ns name : string) : metav1.ObjectMeta :=
  metav1.mkObjectMeta name ns ∅ None.

Definition internalService : admissionregistrationv1.ServiceReference :=
  admissionregistrationv1.mkServiceReference
    "capsule-system" "capsule-webhook-service" (Some "/namespaces") (Some 443).

Definition stale : Bytes := list_byte_of_string "OLD".

Definition validatingEntry (name : string) (internal : bool)
    : admissionregistrationv1.ValidatingWebhook :=
  admissionregistrationv1.mkValidatingWebhook name
    (if internal
     then admissionregistrationv1.mkWebhookClientConfig None (Some internalService) stale
     else admissionregistrationv1.mkWebhookClientConfig
            (Some "https://example.org/hook") None stale)
    ["CREATE"] (Some "Fail") (Some "None") (Some 30) ["v1"].

Definition mutatingEntry (name : string) (internal : bool)
    : admissionregistrationv1.MutatingWebhook :=
  admissionregistrationv1.mkMutatingWebhook name
    (if internal
     then admissionregistrationv1.mkWebhookClientConfig None (Some internalService) stale
     else admissionregistrationv1.mkWebhookClientConfig
            (Some "https://example.org/hook") None stale)
    ["CREATE"] (Some "Fail") (Some "None") (Some 30) ["v1"] (Some "Never").

Definition validating : admissionregistrationv1.ValidatingWebhookConfiguration :=
  admissionregistrationv1.mkValidatingWebhookConfiguration
    (meta "" "capsule-validating-webhook-configuration")
    [validatingEntry "a" true; validatingEntry "b" false; validatingEntry "c" true].

Definition mutating : admissionregistrationv1.MutatingWebhookConfiguration :=
  admissionregistrationv1.mkMutatingWebhookConfiguration
    (meta "" "capsule-mutating-webhook-configuration")
    [mutatingEntry "x" false; mutatingEntry "y" true].

Definition crd : apiextensionsv1.CustomResourceDefinition :=
  apiextensionsv1.mkCustomResourceDefinition
    (meta "" "tenants.capsule.clastix.io")
    (apiextensionsv1.mkCustomResourceDefinitionSpec "Tenant"
       (Some (apiextensionsv1.mkCustomResourceConversion "None" None))).

Definition operatorLabels : gmap string string := {[ "app" := "capsule" ]}.

Definition pod (name : string) (labels : gmap string string) : corev1.Pod :=
  corev1.mkPod (metav1.mkObjectMeta name "capsule-system" labels None) "spec".

(** The secret as installed, before any certificate was issued. *)
Definition emptySecret : corev1.Secret :=
  corev1.mkSecret (meta "capsule-system" "capsule-tls") ∅ "Opaque".

(** A secret holding material that expires at [notAfter]. *)
Definition secretUntil (notAfter : time.Time) : corev1.Secret :=
  corev1.mkSecret (meta "capsule-system" "capsule-tls")
    (<[corev1.TLSCertKey := encode notAfter]>
       (<[corev1.TLSPrivateKeyKey := list_byte_of_string "KEY"]>
          (<[corev1.ServiceAccountRootCAKey := list_byte_of_string "CA"]> ∅)))
    "Opaque".

(** A cluster with the given trust secret and operator pods. *)
Definition cluster (secret : corev1.Secret) (operatorPods : list corev1.Pod) : World :=
  mkWorld {[ request := secret ]}
    {[ ("", "capsule-validating-webhook-configuration") := validating ]}
    {[ ("", "capsule-mutating-webhook-configuration") := mutating ]}
    {[ ("", "tenants.capsule.clastix.io") := crd ]}
    (list_to_map (map (fun p => (ObjectKeyFromObject p, p)) operatorPods))
    [].

Definition fleet : list corev1.Pod :=
  [pod "capsule-0" operatorLabels; pod "capsule-1" operatorLabels; pod "other" ∅].

(** The sample cluster before any certificate was issued, after a first
    pass at instant 0, and the ambient of a second pass one second later. *)
(** The cluster before any certificate was issued, a first pass on it at
    instant 0, and a second pass one second later. *)
Definition start : World := cluster emptySecret fleet.

Definition first : (Error + Result) * World :=
  Reconcile Format (reconciler true) (ambient Lucky 0) request start.



(** The cluster with a populated secret and no pod at all. *)
Definition isolated : World :=
  cluster (secretUntil (100 * day)) [].


(** The cluster with a certificate that expires ten days after instant 0,
    and a pass on it at instant 0. *)
Definition tenDays : World :=
  cluster (secretUntil (10 * day)) fleet.

Definition tenDaysRun : (Error + Result) * World :=
  Reconcile Format (reconciler true) (ambient Lucky 0) request tenDays.

Definition bundle : Bytes := list_byte_of_string "CA".

(** The cluster of [tenDays] without its validating webhook
    configuration. *)
Definition noValidating : World :=
  mkWorld (secrets tenDays) ∅ (mutatingWebhookConfigurations tenDays)
    (customResourceDefinitions tenDays) (pods tenDays) [].

(** A pass at instant 0 with auto-generation disabled. *)
Definition quiet (w : World) : (Error + Result) * World :=
  Reconcile Format (reconciler false) (ambient Lucky 0) request w.


End Sample.

(** * Properties *)

(** ** The range loop *)

Section RangeLoop.

Context {W : Type} (internal : W -> bool) (set : W -> W).

Lemma rangeStep_prefix (ws : list W) (k : nat) (w : W) :
  ws !! k = Some w ->
  rangeStep internal set ((rangeEntry internal set <$> take k ws) ++ drop k ws) k
  = (rangeEntry internal set <$> take (S k) ws) ++ drop (S k) ws.
Proof.
  intros Hk.
  assert (Hlen : length (rangeEntry internal set <$> take k ws) = k).
  { rewrite length_fmap, length_take. apply lookup_lt_Some in Hk. lia. }
  unfold rangeStep.
  rewrite lookup_app_r by lia.
  rewrite Hlen, Nat.sub_diag, lookup_drop, Nat.add_0_r, Hk.
  rewrite (take_S_r _ _ _ Hk), fmap_app. simpl.
  rewrite <- app_assoc. simpl.
  assert (He : rangeEntry internal set w = if internal w then set w else w) by done.
  rewrite He. clear He.
  destruct (internal w).
  - rewrite insert_app_r_alt by lia.
    by rewrite Hlen, Nat.sub_diag, (drop_S _ _ _ Hk).
  - by rewrite (drop_S _ _ _ Hk).
Qed.

Lemma rangeUpdate_prefix (ws : list W) (k : nat) :
  (k <= length ws)%nat ->
  fold_left (rangeStep internal set) (seq 0 k) ws
  = (rangeEntry internal set <$> take k ws) ++ drop k ws.
Proof.
  induction k as [|k IH]; intros Hk.
  - by rewrite take_0, drop_0.
  - rewrite seq_S, fold_left_app, IH by lia. simpl.
    destruct (lookup_lt_is_Some_2 ws k) as [w Hw]; [lia|].
    by apply rangeStep_prefix with w.
Qed.

(** The loop rewrites every internal entry and no other. *)
Lemma rangeUpdate_fmap (ws : list W) :
  rangeUpdate internal set ws = rangeEntry internal set <$> ws.
Proof.
  unfold rangeUpdate.
  rewrite rangeUpdate_prefix by lia.
  by rewrite firstn_all, drop_all, app_nil_r.
Qed.

Lemma rangeUpdate_length (ws : list W) :
  length (rangeUpdate internal set ws) = length ws.
Proof. by rewrite rangeUpdate_fmap, length_fmap. Qed.

Lemma rangeUpdate_lookup (ws : list W) (i : nat) :
  rangeUpdate internal set ws !! i = rangeEntry internal set <$> ws !! i.
Proof. by rewrite rangeUpdate_fmap, list_lookup_fmap. Qed.


End RangeLoop.

(** ** Frames: what a computation may change *)

Section Frames.

Context (R : World -> World -> Prop) `{!PreOrder R}.

Lemma frame_ret {A : Type} (a : A) : frame R (ret a).
Proof. intros w res w' E. inversion E. reflexivity. Qed.

Lemma frame_fail {A : Type} (e : Error) : frame R (fail (A := A) e).
Proof. intros w res w' E. inversion E. reflexivity. Qed.

Lemma frame_liftE {A : Type} (r : Error + A) : frame R (liftE r).
Proof. intros w res w' E. inversion E. reflexivity. Qed.

Lemma frame_bind {A B : Type} (m : M A) (k : A -> M B) :
  frame R m -> (forall a, frame R (k a)) -> frame R (bind m k).
Proof.
  intros Hm Hk w res w' E. unfold bind in E.
  destruct (m w) as [[e|a] w1] eqn:Em.
  - inversion E; subst. by apply Hm in Em.
  - apply Hm in Em. apply Hk in E. by transitivity w1.
Qed.

Lemma frame_Get {A : Type} `{Object A} (key : NamespacedName) :
  frame R (Get (A := A) key).
Proof.
  intros w res w' E. unfold Get in E.
  destruct (objects w !! key); inversion E; reflexivity.
Qed.

Lemma frame_GetOrZero {A : Type} `{Object A} (zero : A) (key : NamespacedName) :
  frame R (GetOrZero zero key).
Proof.
  intros w res w' E. unfold GetOrZero, Get in E.
  destruct (objects w !! key); simpl in E; inversion E; reflexivity.
Qed.

Lemma frame_ListPods (selector : gmap string string) :
  frame R (ListPods selector).
Proof. intros w res w' E. inversion E. reflexivity. Qed.

Lemma frame_attempt (n : nat) (fn : M unit) :
  frame R fn -> frame R (attempt n fn).
Proof.
  intros Hfn. induction n as [|n IH]; intros w res w' E; simpl in E.
  - destruct (fn w) as [[e|[]] w1] eqn:Efn.
    + destruct (IsConflict e); inversion E; subst; by apply Hfn in Efn.
    + inversion E; subst. by apply Hfn in Efn.
  - destruct (fn w) as [[e|[]] w1] eqn:Efn.
    + apply Hfn in Efn. destruct (IsConflict e).
      * apply IH in E. by transitivity w1.
      * by inversion E; subst.
    + inversion E; subst. by apply Hfn in Efn.
Qed.

Lemma frame_RetryOnConflict (steps : nat) (fn : M unit) :
  frame R fn -> frame R (RetryOnConflict steps fn).
Proof.
  intros Hfn. destruct steps; simpl.
  - apply frame_ret.
  - by apply frame_attempt.
Qed.

Lemma frame_runGroup (ts : list (M unit)) (first : option Error) :
  Forall (frame R) ts -> frame R (runGroup ts first).
Proof.
  intros Hts. revert first.
  induction Hts as [|t ts Ht _ IH]; intros first w res w' E; simpl in E.
  - inversion E. reflexivity.
  - destruct (t w) as [[e|[]] w1] eqn:Et; apply Ht in Et; apply IH in E;
      by transitivity w1.
Qed.

Lemma frame_CreateOrUpdate {A : Type} `{Object A} `{EqDecision A}
    (obj : A) (f : A -> Error + A) :
  (forall o, frame R (Update (A := A) o)) ->
  (forall o, frame R (Create (A := A) o)) ->
  frame R (CreateOrUpdate obj f).
Proof.
  intros HU HC w res w' E. unfold CreateOrUpdate in E.
  destruct (Get (ObjectKeyFromObject obj) w) as [[e|existing] w1] eqn:EG;
    apply frame_Get in EG.
  - destruct (IsNotFound e).
    + transitivity w1; [done|]. revert E.
      apply frame_bind; [apply frame_liftE|]. intros o.
      apply frame_bind; [apply HC|]. intros _. apply frame_ret.
    + by inversion E; subst.
  - transitivity w1; [done|]. revert E.
    apply frame_bind; [apply frame_liftE|]. intros o.
    destruct (decide (existing = o)); [apply frame_ret|].
    apply frame_bind; [apply HU|]. intros _. apply frame_ret.
Qed.

End Frames.

#[global] Instance keepsKeyed_preorder : PreOrder keepsKeyed.
Proof. split; unfold keepsKeyed; [intros w; tauto | intros w1 w2 w3; tauto]. Qed.

#[global] Instance propagates_preorder : PreOrder propagates.
Proof.
  split.
  - intros w. split; [done|]. exists []. by rewrite app_nil_r.
  - intros w1 w2 w3 [E1 (cs1 & J1 & F1)] [E2 (cs2 & J2 & F2)].
    split; [congruence|]. exists (cs1 ++ cs2).
    rewrite J2, J1, app_assoc. split; [done|]. by apply Forall_app.
Qed.

#[global] Instance persists_preorder : PreOrder persists.
Proof.
  split.
  - intros w. repeat (split; [done|]). exists []. by rewrite app_nil_r.
  - intros w1 w2 w3 (V1 & M1 & C1 & P1 & cs1 & J1 & F1)
      (V2 & M2 & C2 & P2 & cs2 & J2 & F2).
    repeat (split; [congruence|]). exists (cs1 ++ cs2).
    rewrite J2, J1, app_assoc. split; [done|]. by apply Forall_app.
Qed.

(** Runs one client write to its two outcomes. *)
Ltac run_write E :=
  unfold Update, Create, record, bind in E; simpl in E;
  match type of E with
  | context [?m !! ?k] => destruct (m !! k) eqn:?
  end;
  inversion E; subst; clear E.

Ltac keyed_goal :=
  let K := fresh "K" in
  intros K; destruct K; constructor; simpl; try done;
  apply map_Forall_insert_2; done.

Ltac journal_goal c :=
  simpl; repeat (split; [done|]); exists [c]; split; [done|];
  by repeat constructor.

Lemma keepsKeyed_record (c : Call) : frame keepsKeyed (record c).
Proof. intros w res w' E. inversion E; subst. intros []. by constructor. Qed.

Lemma keepsKeyed_Update_Secret (o : corev1.Secret) : frame keepsKeyed (Update o).
Proof. intros w res w' E. run_write E; keyed_goal. Qed.

Lemma keepsKeyed_Create_Secret (o : corev1.Secret) : frame keepsKeyed (Create o).
Proof. intros w res w' E. run_write E; keyed_goal. Qed.

Lemma keepsKeyed_Update_Validating
    (o : admissionregistrationv1.ValidatingWebhookConfiguration) :
  frame keepsKeyed (Update o).
Proof. intros w res w' E. run_write E; keyed_goal. Qed.

Lemma keepsKeyed_Update_Mutating
    (o : admissionregistrationv1.MutatingWebhookConfiguration) :
  frame keepsKeyed (Update o).
Proof. intros w res w' E. run_write E; keyed_goal. Qed.

Lemma keepsKeyed_Update_CRD (o : apiextensionsv1.CustomResourceDefinition) :
  frame keepsKeyed (Update o).
Proof. intros w res w' E. run_write E; keyed_goal. Qed.

Lemma keepsKeyed_Create_CRD (o : apiextensionsv1.CustomResourceDefinition) :
  frame keepsKeyed (Create o).
Proof. intros w res w' E. run_write E; keyed_goal. Qed.

Lemma keepsKeyed_Update_Pod (o : corev1.Pod) : frame keepsKeyed (Update o).
Proof. intros w res w' E. run_write E; keyed_goal. Qed.

Lemma propagates_Update_Validating
    (o : admissionregistrationv1.ValidatingWebhookConfiguration) :
  frame propagates (Update o).
Proof.
  intros w res w' E.
  run_write E;
    journal_goal (CallUpdate KValidatingWebhookConfiguration (ObjectKeyFromObject o)).
Qed.

Lemma propagates_Update_Mutating
    (o : admissionregistrationv1.MutatingWebhookConfiguration) :
  frame propagates (Update o).
Proof.
  intros w res w' E.
  run_write E;
    journal_goal (CallUpdate KMutatingWebhookConfiguration (ObjectKeyFromObject o)).
Qed.

Lemma propagates_Update_CRD (o : apiextensionsv1.CustomResourceDefinition) :
  frame propagates (Update o).
Proof.
  intros w res w' E.
  run_write E;
    journal_goal (CallUpdate KCustomResourceDefinition (ObjectKeyFromObject o)).
Qed.

Lemma propagates_Create_CRD (o : apiextensionsv1.CustomResourceDefinition) :
  frame propagates (Create o).
Proof.
  intros w res w' E.
  run_write E;
    journal_goal (CallCreate KCustomResourceDefinition (ObjectKeyFromObject o)).
Qed.

Lemma propagates_Update_Pod (o : corev1.Pod) : frame propagates (Update o).
Proof.
  intros w res w' E.
  run_write E; journal_goal (CallUpdate KPod (ObjectKeyFromObject o)).
Qed.

Lemma persists_Update_Secret (o : corev1.Secret) : frame persists (Update o).
Proof.
  intros w res w' E.
  run_write E; journal_goal (CallUpdate KSecret (ObjectKeyFromObject o)).
Qed.

Lemma persists_Create_Secret (o : corev1.Secret) : frame persists (Create o).
Proof.
  intros w res w' E.
  run_write E; journal_goal (CallCreate KSecret (ObjectKeyFromObject o)).
Qed.

Lemma persists_record (c : Call) :
  isPropagation c = false -> frame persists (record c).
Proof.
  intros Hc w res w' E. inversion E; subst. simpl.
  repeat (split; [done|]). exists [c]. split; [done|]. by repeat constructor.
Qed.

Create HintDb frames.

#[global] Hint Resolve
  keepsKeyed_record keepsKeyed_Update_Secret keepsKeyed_Create_Secret
  keepsKeyed_Update_Validating keepsKeyed_Update_Mutating
  keepsKeyed_Update_CRD keepsKeyed_Create_CRD keepsKeyed_Update_Pod
  propagates_Update_Validating propagates_Update_Mutating
  propagates_Update_CRD propagates_Create_CRD propagates_Update_Pod
  persists_Update_Secret persists_Create_Secret : frames.

(** Splits the frame of a composed computation into those of its parts. *)
Ltac frame_steps :=
  repeat first
    [ solve [auto with frames]
    | apply frame_RetryOnConflict; [typeclasses eauto|]
    | apply frame_bind; [typeclasses eauto| |intros ?]
    | apply frame_CreateOrUpdate; [typeclasses eauto|intros ?|intros ?]
    | apply frame_Get; typeclasses eauto
    | apply frame_GetOrZero; typeclasses eauto
    | apply frame_ListPods; typeclasses eauto
    | apply frame_ret; typeclasses eauto
    | apply frame_fail; typeclasses eauto
    | apply frame_liftE; typeclasses eauto
    | match goal with
      | |- frame _ (let (_, _) := ?p in _) => destruct p
      end ].

Section TaskFrames.

Context `{CertPackage}.
Variable Format : time.Time -> string.

Lemma frame_getOperatorPods (R : World -> World -> Prop) `{!PreOrder R} (a : Ambient) :
  frame R (getOperatorPods a).
Proof. unfold getOperatorPods. frame_steps. Qed.


Lemma propagates_tasks r a caBundle operatorPods :
  Forall (frame propagates) (tasks Format r a caBundle operatorPods).
Proof.
  unfold tasks. apply Forall_app. split.
  - repeat apply Forall_cons_2; [| | |apply Forall_nil_2].
    + unfold updateMutatingWebhookConfiguration. frame_steps.
    + unfold updateValidatingWebhookConfiguration. frame_steps.
    + unfold updateCustomResourceDefinition. frame_steps.
  - apply Forall_map, Forall_forall. intros p _.
    unfold updateOperatorPod. frame_steps.
Qed.

Lemma keepsKeyed_regenerate r a certSecret :
  frame keepsKeyed (regenerate r a certSecret).
Proof. unfold regenerate. frame_steps. Qed.

Lemma persists_regenerate r a certSecret :
  frame persists (regenerate r a certSecret).
Proof.
  unfold regenerate.
  apply frame_bind; [typeclasses eauto|by apply persists_record|intros _].
  apply frame_bind; [typeclasses eauto|frame_steps|intros ca].
  apply frame_bind; [typeclasses eauto|by apply persists_record|intros _].
  frame_steps.
Qed.

End TaskFrames.

(** ** Running the client and the tasks *)

Lemma attempt_settled (n : nat) (fn : M unit) (w w' : World) (res : Error + unit) :
  fn w = (res, w') ->
  (forall e, res = inl e -> IsConflict e = false) ->
  attempt n fn w = (res, w').
Proof.
  intros E Hres. destruct n; simpl; rewrite E;
    destruct res as [e|[]]; try done; by rewrite (Hres e eq_refl).
Qed.

Lemma runGroup_failed (ts : list (M unit)) (e : Error) (w : World) :
  fst (runGroup ts (Some e) w) = inl e.
Proof.
  revert w. induction ts as [|t ts IH]; intros w; simpl; [done|].
  destruct (t w) as [[e'|[]] w1]; apply IH.
Qed.

Lemma runGroup_cons_ok (t : M unit) (ts : list (M unit)) (w w1 : World) :
  t w = (inr tt, w1) ->
  runGroup (t :: ts) None w = runGroup ts None w1.
Proof. intros E. simpl. by rewrite E. Qed.

Lemma runGroup_cons_failed (t : M unit) (ts : list (M unit)) (e : Error) (w w1 : World) :
  t w = (inl e, w1) ->
  fst (runGroup (t :: ts) None w) = inl e.
Proof. intros E. simpl. rewrite E. apply runGroup_failed. Qed.

Section Runs.

Context `{CertPackage}.
Variable Format : time.Time -> string.

Lemma updateValidating_run r caBundle w vw :
  validatingWebhookConfigurations w !! validatingKey r = Some vw ->
  ObjectKeyFromObject vw = validatingKey r ->
  updateValidatingWebhookConfiguration r caBundle w
  = (inr tt,
     mkWorld (secrets w)
       (<[validatingKey r := validatingUpdated caBundle vw]>
          (validatingWebhookConfigurations w))
       (mutatingWebhookConfigurations w) (customResourceDefinitions w) (pods w)
       (journal w ++ [CallUpdate KValidatingWebhookConfiguration (validatingKey r)])).
Proof.
  intros Hvw Hkey. unfold updateValidatingWebhookConfiguration, RetryOnConflict, DefaultBackoff.
  apply attempt_settled; [|done].
  unfold bind, Get, Update, record, bind. simpl.
  fold (validatingKey r). rewrite Hvw.
  unfold ObjectKeyFromObject in *. simpl in *. rewrite Hkey, Hvw. done.
Qed.

Lemma updateValidating_missing r caBundle w :
  validatingWebhookConfigurations w !! validatingKey r = None ->
  updateValidatingWebhookConfiguration r caBundle w
  = (inl (StatusNotFound KValidatingWebhookConfiguration (validatingKey r)), w).
Proof.
  intros Hvw. unfold updateValidatingWebhookConfiguration, RetryOnConflict, DefaultBackoff.
  apply attempt_settled; [|by intros e [= <-]].
  unfold bind, Get. simpl. fold (validatingKey r). by rewrite Hvw.
Qed.

Lemma updateMutating_run r caBundle w mw :
  mutatingWebhookConfigurations w !! mutatingKey r = Some mw ->
  ObjectKeyFromObject mw = mutatingKey r ->
  updateMutatingWebhookConfiguration r caBundle w
  = (inr tt,
     mkWorld (secrets w) (validatingWebhookConfigurations w)
       (<[mutatingKey r := mutatingUpdated caBundle mw]>
          (mutatingWebhookConfigurations w))
       (customResourceDefinitions w) (pods w)
       (journal w ++ [CallUpdate KMutatingWebhookConfiguration (mutatingKey r)])).
Proof.
  intros Hmw Hkey. unfold updateMutatingWebhookConfiguration, RetryOnConflict, DefaultBackoff.
  apply attempt_settled; [|done].
  unfold bind, Get, Update, record, bind. simpl.
  fold (mutatingKey r). rewrite Hmw.
  unfold ObjectKeyFromObject in *. simpl in *. rewrite Hkey, Hmw. done.
Qed.

Lemma updateMutating_missing r caBundle w :
  mutatingWebhookConfigurations w !! mutatingKey r = None ->
  updateMutatingWebhookConfiguration r caBundle w
  = (inl (StatusNotFound KMutatingWebhookConfiguration (mutatingKey r)), w).
Proof.
  intros Hmw. unfold updateMutatingWebhookConfiguration, RetryOnConflict, DefaultBackoff.
  apply attempt_settled; [|by intros e [= <-]].
  unfold bind, Get. simpl. fold (mutatingKey r). by rewrite Hmw.
Qed.

Lemma updateCRD_run r caBundle w crd :
  customResourceDefinitions w !! tenantsKey = Some crd ->
  ObjectKeyFromObject crd = tenantsKey ->
  updateCustomResourceDefinition r caBundle w
  = (inr tt,
     if decide (crd = crdUpdated r caBundle crd) then w
     else
       mkWorld (secrets w) (validatingWebhookConfigurations w)
         (mutatingWebhookConfigurations w)
         (<[tenantsKey := crdUpdated r caBundle crd]> (customResourceDefinitions w))
         (pods w)
         (journal w ++ [CallUpdate KCustomResourceDefinition tenantsKey])).
Proof.
  intros Hcrd Hkey. unfold updateCustomResourceDefinition, RetryOnConflict, DefaultBackoff.
  apply attempt_settled; [|done].
  unfold bind at 1. unfold Get at 1. simpl objects. fold tenantsKey. rewrite Hcrd.
  unfold bind at 1. unfold CreateOrUpdate. rewrite Hkey.
  unfold Get. simpl objects. rewrite Hcrd.
  unfold bind at 1. unfold liftE, mutate.
  assert (Hk' : ObjectKeyFromObject (apiextensionsv1.withConversion
                  (Some (conversion r caBundle)) crd) = tenantsKey) by exact Hkey.
  rewrite Hk'. rewrite decide_True by done.
  fold (crdUpdated r caBundle crd).
  destruct (decide (crd = crdUpdated r caBundle crd)) as [E|NE]; [done|].
  unfold bind, Update, record, bind, ret. simpl.
  fold (crdUpdated r caBundle crd).
  unfold ObjectKeyFromObject in *. simpl in *. rewrite Hkey, Hcrd. done.
Qed.

Lemma updateCRD_missing r caBundle w :
  customResourceDefinitions w !! tenantsKey = None ->
  updateCustomResourceDefinition r caBundle w
  = (inl (StatusNotFound KCustomResourceDefinition tenantsKey), w).
Proof.
  intros Hcrd. unfold updateCustomResourceDefinition, RetryOnConflict, DefaultBackoff.
  apply attempt_settled; [|by intros e [= <-]].
  unfold bind, Get. simpl. fold tenantsKey. by rewrite Hcrd.
Qed.

Lemma updateOperatorPod_run a pod w p :
  pods w !! ObjectKeyFromObject pod = Some p ->
  ObjectKeyFromObject p = ObjectKeyFromObject pod ->
  updateOperatorPod Format a pod w
  = (inr tt,
     mkWorld (secrets w) (validatingWebhookConfigurations w)
       (mutatingWebhookConfigurations w) (customResourceDefinitions w)
       (<[ObjectKeyFromObject pod :=
            markUpdated (Format (nowPod a (ObjectKeyFromObject pod))) p]> (pods w))
       (journal w ++ [CallUpdate KPod (ObjectKeyFromObject pod)])).
Proof.
  intros Hp Hkey. unfold updateOperatorPod, RetryOnConflict, DefaultRetry.
  apply attempt_settled; [|done].
  unfold bind at 1. unfold GetOrZero, Get. simpl objects.
  change (metav1.Namespace (corev1.PodMeta pod), metav1.Name (corev1.PodMeta pod))
    with (ObjectKeyFromObject pod).
  rewrite Hp.
  unfold Update, record, bind. simpl.
  change (ObjectKeyFromObject (markUpdated (Format (nowPod a (ObjectKeyFromObject pod))) p))
    with (ObjectKeyFromObject p).
  rewrite Hkey, Hp. done.
Qed.

End Runs.

Section PassFrames.

Context `{CertPackage}.
Variable Format : time.Time -> string.

Lemma frame_propagate (R : World -> World -> Prop) `{!PreOrder R} r a certSecret :
  (forall caBundle operatorPods,
     Forall (frame R) (tasks Format r a caBundle operatorPods)) ->
  frame R (propagate Format r a certSecret).
Proof.
  intros Htasks. unfold propagate.
  destruct (corev1.Data certSecret !! corev1.ServiceAccountRootCAKey) as [caBundle|].
  - apply frame_bind; [done|by apply frame_getOperatorPods|intros operatorPods].
    apply frame_bind; [done|by apply frame_runGroup|intros _].
    destruct (GenerateCertificates (rConfiguration r)); frame_steps.
  - by apply frame_fail.
Qed.

Lemma propagates_propagate r a certSecret :
  frame propagates (propagate Format r a certSecret).
Proof. apply frame_propagate; [typeclasses eauto|]. intros. apply propagates_tasks. Qed.



(** A pass starts by reading the trust secret named in the request. *)
Lemma Reconcile_steps r a request w s :
  secrets w !! request = Some s ->
  Reconcile Format r a request w
  = bind (decisionStep r a s) (propagate Format r a) w.
Proof.
  intros Hs. unfold Reconcile. unfold bind at 1. unfold Get. simpl objects.
  by rewrite Hs.
Qed.

Lemma Reconcile_missing r a request w :
  secrets w !! request = None ->
  Reconcile Format r a request w = (inl (StatusNotFound KSecret request), w).
Proof.
  intros Hs. unfold Reconcile. unfold bind at 1. unfold Get. simpl objects.
  by rewrite Hs.
Qed.

End PassFrames.

(** ** Running the regeneration step *)

Section Regeneration.

Context `{CertPackage}.

Lemma regenerate_ca_failed r a s w e :
  GenerateCertificateAuthority (rand a) = inl e ->
  regenerate r a s w = (inl e, logged [CallGenerateCertificateAuthority] w).
Proof.
  intros Hca. unfold regenerate, bind, record, liftE. by rewrite Hca.
Qed.

Lemma regenerate_leaf_failed r a s w ca e :
  GenerateCertificateAuthority (rand a) = inr ca ->
  GenerateCertificate (rand a) ca (leafOptions r a) = inl e ->
  regenerate r a s w
  = (inl e, logged [CallGenerateCertificateAuthority;
                    CallGenerateCertificate (leafOptions r a)] w).
Proof.
  intros Hca Hleaf. unfold regenerate, bind, record, liftE. rewrite Hca.
  fold (leafOptions r a). rewrite Hleaf. unfold logged. simpl.
  by rewrite <- app_assoc.
Qed.

Lemma regenerate_run r a s w ca crt key s0 :
  GenerateCertificateAuthority (rand a) = inr ca ->
  GenerateCertificate (rand a) ca (leafOptions r a) = inr (crt, key) ->
  secrets w !! ObjectKeyFromObject s = Some s0 ->
  ObjectKeyFromObject s0 = ObjectKeyFromObject s ->
  let data := trustData crt key (CACertificatePem ca) in
  let calls := [CallGenerateCertificateAuthority;
                CallGenerateCertificate (leafOptions r a)] in
  regenerate r a s w
  = (inr (corev1.withData data s),
     if decide (s0 = corev1.withData data s0) then logged calls w
     else
       mkWorld (<[ObjectKeyFromObject s := corev1.withData data s0]> (secrets w))
         (validatingWebhookConfigurations w) (mutatingWebhookConfigurations w)
         (customResourceDefinitions w) (pods w)
         (journal w ++ calls ++ [CallUpdate KSecret (ObjectKeyFromObject s)])).
Proof.
  intros Hca Hleaf Hs0 Hkey data calls.
  unfold regenerate.
  unfold bind at 1. unfold record at 1.
  unfold bind at 1. unfold liftE at 1. rewrite Hca.
  fold (leafOptions r a).
  unfold bind at 1. unfold record at 1.
  unfold bind at 1. unfold liftE at 1. rewrite Hleaf.
  fold (trustData crt key (CACertificatePem ca)). fold data.
  unfold bind at 1. unfold CreateOrUpdate.
  change (ObjectKeyFromObject
            {| corev1.SecretMeta := corev1.SecretMeta s;
               corev1.Data := ∅; corev1.SecretType := "" |})
    with (ObjectKeyFromObject s).
  unfold Get. simpl objects. rewrite Hs0.
  unfold bind at 1. unfold liftE, mutate.
  change (ObjectKeyFromObject
            (corev1.withData (corev1.Data (corev1.withData data s)) s0))
    with (ObjectKeyFromObject s0).
  rewrite Hkey, decide_True by done.
  change (corev1.Data (corev1.withData data s)) with data.
  destruct (decide (s0 = corev1.withData data s0)) as [E|NE].
  - unfold ret, logged, calls. simpl. by rewrite <- app_assoc.
  - unfold bind, Update, record, bind, ret. simpl.
    change (ObjectKeyFromObject (corev1.withData data s0))
      with (ObjectKeyFromObject s0).
    rewrite Hkey, Hs0. unfold calls. simpl.
    by rewrite <- !app_assoc.
Qed.

End Regeneration.

(** ** Well-keyed clusters *)

(** The empty cluster is well-keyed, and every write keeps a cluster so
    (see [keepsKeyed_Reconcile]): the clusters a pass can meet are
    well-keyed. *)
Lemma WellKeyed_empty : WellKeyed (mkWorld ∅ ∅ ∅ ∅ ∅ []).
Proof. constructor; simpl; apply map_Forall_empty. Qed.


Lemma Sample_cluster_WellKeyed (secret : corev1.Secret) (operatorPods : list corev1.Pod) :
  ObjectKeyFromObject secret = Sample.request ->
  WellKeyed (Sample.cluster secret operatorPods).
Proof.
  intros Hs. constructor; simpl; unfold keyed.
  - by apply map_Forall_singleton.
  - by apply map_Forall_singleton.
  - by apply map_Forall_singleton.
  - by apply map_Forall_singleton.
  - intros k p Hp. apply elem_of_list_to_map_2 in Hp.
    apply list_elem_of_In, in_map_iff in Hp. destruct Hp as (p' & [= <- <-] & _).
    done.
Qed.

(** ** Requeue arithmetic *)

Lemma wrap64_small (z : Z) :
  int64_min <= z <= int64_max -> wrap64 z = z.
Proof.
  unfold wrap64, int64_min, int64_max. intros Hz.
  rewrite Z.mod_small; lia.
Qed.


(** Within the range of [int64] the delay is the whole-second difference of
    the two instants less the four days of lookahead. *)
Lemma requeueAfter_exact (notAfter now : time.Time) :
  int64_min + certificateReconciliationThreshold
    <= (time.Unix notAfter - time.Unix now) * time.Second <= int64_max ->
  requeueAfter notAfter now
  = (time.Unix notAfter - time.Unix now) * time.Second - 4 * (24 * time.Hour).
Proof.
  unfold requeueAfter, time.sub, time.mul.
  change certificateReconciliationThreshold with 345600000000000.
  change time.Second with 1000000000.
  change (4 * (24 * time.Hour)) with 345600000000000.
  unfold int64_min, int64_max.
  generalize (time.Unix notAfter - time.Unix now). intros d Hd.
  rewrite (wrap64_small d) by (unfold int64_min, int64_max; lia).
  rewrite (wrap64_small (d * _)) by (unfold int64_min, int64_max; lia).
  rewrite wrap64_small by (unfold int64_min, int64_max; lia).
  done.
Qed.


(** ** The shape of a pass *)

Section PassRuns.

Context `{CertPackage}.
Variable Format : time.Time -> string.

(** A regeneration that returns hands on the three fresh fields. *)
Lemma regenerate_result r a s w certSecret w1 :
  regenerate r a s w = (inr certSecret, w1) ->
  exists ca crt key,
    GenerateCertificateAuthority (rand a) = inr ca /\
    GenerateCertificate (rand a) ca (leafOptions r a) = inr (crt, key) /\
    certSecret = corev1.withData (trustData crt key (CACertificatePem ca)) s.
Proof.
  unfold regenerate. fold (leafOptions r a).
  unfold bind at 1. unfold record at 1.
  unfold bind at 1. unfold liftE at 1.
  destruct (GenerateCertificateAuthority (rand a)) as [e|ca] eqn:Hca; [done|].
  unfold bind at 1. unfold record at 1.
  unfold bind at 1. unfold liftE at 1.
  destruct (GenerateCertificate (rand a) ca (leafOptions r a))
    as [e|[crt key]] eqn:Hleaf; [done|].
  unfold bind at 1.
  destruct (CreateOrUpdate _ _ _) as [[e|op] w2]; [done|].
  unfold ret. intros [= <- <-]. by exists ca, crt, key.
Qed.

(** A pass that decides to rotate, on a well-keyed cluster. *)
Lemma Reconcile_rotating r a request w s res w' :
  WellKeyed w ->
  secrets w !! request = Some s ->
  shouldUpdateCertificate r (nowValidate a) s = true ->
  Reconcile Format r a request w = (res, w') ->
  match GenerateCertificateAuthority (rand a) with
  | inl e => res = inl e /\ w' = logged [CallGenerateCertificateAuthority] w
  | inr ca =>
    match GenerateCertificate (rand a) ca (leafOptions r a) with
    | inl e =>
      res = inl e /\
      w' = logged [CallGenerateCertificateAuthority;
                   CallGenerateCertificate (leafOptions r a)] w
    | inr (crt, key) =>
      let s' := corev1.withData (trustData crt key (CACertificatePem ca)) s in
      let calls := [CallGenerateCertificateAuthority;
                    CallGenerateCertificate (leafOptions r a)] in
      propagate Format r a s'
        (if decide (s = s') then logged calls w
         else
           mkWorld (<[request := s']> (secrets w))
             (validatingWebhookConfigurations w) (mutatingWebhookConfigurations w)
             (customResourceDefinitions w) (pods w)
             (journal w ++ calls ++ [CallUpdate KSecret request]))
      = (res, w')
    end
  end.
Proof.
  intros Hwf Hs Hrot E.
  assert (Hkey : ObjectKeyFromObject s = request)
    by exact (keyed_secrets w Hwf _ _ Hs).
  rewrite (Reconcile_steps _ _ _ _ _ _ Hs) in E.
  unfold bind, decisionStep in E. rewrite Hrot in E.
  destruct (GenerateCertificateAuthority (rand a)) as [e|ca] eqn:Hca.
  - rewrite (regenerate_ca_failed _ _ _ _ _ Hca) in E. by inversion E.
  - destruct (GenerateCertificate (rand a) ca (leafOptions r a))
      as [e|[crt key]] eqn:Hleaf.
    + rewrite (regenerate_leaf_failed _ _ _ _ _ _ Hca Hleaf) in E. by inversion E.
    + rewrite (regenerate_run r a s w ca crt key s Hca Hleaf) in E;
        [|by rewrite Hkey|done].
      rewrite Hkey in E. exact E.
Qed.


End PassRuns.

Lemma trustData_ca (crt key caCrt : Bytes) :
  trustData crt key caCrt !! corev1.ServiceAccountRootCAKey = Some caCrt.
Proof.
  unfold trustData.
  rewrite lookup_insert_ne by done. rewrite lookup_insert_ne by done.
  apply lookup_insert_eq.
Qed.


Section Discovery.

Context `{CertPackage}.

Lemma getOperatorPods_missing a w :
  pods w !! (Getenv_NAMESPACE a, Hostname a) = None ->
  getOperatorPods a w
  = (inl (StatusNotFound KPod (Getenv_NAMESPACE a, Hostname a)), w).
Proof. intros Hp. unfold getOperatorPods, bind, Get. simpl. by rewrite Hp. Qed.

Lemma getOperatorPods_run a w leaderPod :
  pods w !! (Getenv_NAMESPACE a, Hostname a) = Some leaderPod ->
  getOperatorPods a w
  = (inr (filter (fun p => metav1.Labels (corev1.PodMeta leaderPod)
                             ⊆ metav1.Labels (corev1.PodMeta p))
            (map snd (map_to_list (pods w)))), w).
Proof. intros Hp. unfold getOperatorPods, bind, Get. simpl. by rewrite Hp. Qed.

Lemma keepsKeyed_decisionStep r a s : frame keepsKeyed (decisionStep r a s).
Proof.
  unfold decisionStep. destruct (shouldUpdateCertificate _ _ _).
  - apply keepsKeyed_regenerate.
  - apply frame_ret. typeclasses eauto.
Qed.

Lemma persists_decisionStep r a s : frame persists (decisionStep r a s).
Proof.
  unfold decisionStep. destruct (shouldUpdateCertificate _ _ _).
  - apply persists_regenerate.
  - apply frame_ret. typeclasses eauto.
Qed.

End Discovery.

(** ** Fleet notification *)

Section Notification.

Context `{CertPackage}.
Variable Format : time.Time -> string.

Lemma notified_other a l m k :
  k ∉ ObjectKeyFromObject <$> l ->
  notified Format a l m !! k = m !! k.
Proof.
  revert m. induction l as [|p l IH]; intros m Hk; [done|].
  simpl in *. apply not_elem_of_cons in Hk as [Hne Hk].
  unfold notified in *. simpl. rewrite IH by done.
  by rewrite lookup_insert_ne.
Qed.

Lemma notified_member a l m p :
  NoDup (ObjectKeyFromObject <$> l) ->
  p ∈ l ->
  notified Format a l m !! ObjectKeyFromObject p = Some (marked Format a p).
Proof.
  revert m. induction l as [|q l IH]; intros m Hnd Hp; [by apply elem_of_nil in Hp|].
  simpl in Hnd. apply NoDup_cons in Hnd as [Hq Hnd].
  apply elem_of_cons in Hp as [->|Hp].
  - change (notified Format a (q :: l) m)
      with (notified Format a l (<[ObjectKeyFromObject q := marked Format a q]> m)).
    rewrite notified_other by done. apply lookup_insert_eq.
  - change (notified Format a (q :: l) m)
      with (notified Format a l (<[ObjectKeyFromObject q := marked Format a q]> m)).
    by apply IH.
Qed.

(** The notification tasks all succeed on pods that are stored as listed,
    and they change nothing but those pods. *)
Lemma notify_run a l first w :
  NoDup (ObjectKeyFromObject <$> l) ->
  (forall p, p ∈ l -> pods w !! ObjectKeyFromObject p = Some p) ->
  exists w',
    runGroup (map (updateOperatorPod Format a) l) first w
    = (match first with Some e => inl e | None => inr tt end, w') /\
    secrets w' = secrets w /\
    validatingWebhookConfigurations w' = validatingWebhookConfigurations w /\
    mutatingWebhookConfigurations w' = mutatingWebhookConfigurations w /\
    customResourceDefinitions w' = customResourceDefinitions w /\
    pods w' = notified Format a l (pods w) /\
    journal w'
    = journal w ++ map (fun p => CallUpdate KPod (ObjectKeyFromObject p)) l.
Proof.
  revert w. induction l as [|p l IH]; intros w Hnd Hstored.
  - exists w. simpl. by rewrite app_nil_r.
  - simpl in Hnd. apply NoDup_cons in Hnd as [Hp Hnd].
    assert (Hrun := updateOperatorPod_run Format a p w p
                      (Hstored p (list_elem_of_here p l)) eq_refl).
    set (w1 := mkWorld (secrets w) (validatingWebhookConfigurations w)
                 (mutatingWebhookConfigurations w) (customResourceDefinitions w)
                 (<[ObjectKeyFromObject p := marked Format a p]> (pods w))
                 (journal w ++ [CallUpdate KPod (ObjectKeyFromObject p)])).
    assert (Hstored1 : forall q, q ∈ l -> pods w1 !! ObjectKeyFromObject q = Some q).
    { intros q Hq. simpl. rewrite lookup_insert_ne.
      - apply Hstored. by apply list_elem_of_further.
      - intros Heq. apply Hp. rewrite Heq. by apply list_elem_of_fmap_2. }
    destruct (IH w1 Hnd Hstored1) as (w' & E & Hs & Hv & Hm & Hc & Hpods & Hj).
    exists w'. split.
    { change (map (updateOperatorPod Format a) (p :: l))
        with (updateOperatorPod Format a p :: map (updateOperatorPod Format a) l).
      unfold runGroup at 1. fold runGroup. rewrite Hrun. exact E. }
    simpl in *. repeat (split; [done|]). by rewrite Hj, <- app_assoc.
Qed.

Lemma operatorPodsOf_member leaderPod m p :
  keyed m ->
  p ∈ operatorPodsOf leaderPod m <->
  m !! ObjectKeyFromObject p = Some p /\
  metav1.Labels (corev1.PodMeta leaderPod) ⊆ metav1.Labels (corev1.PodMeta p).
Proof.
  intros Hk. unfold operatorPodsOf. rewrite list_elem_of_filter.
  change (map snd (map_to_list m)) with ((map_to_list m).*2).
  rewrite list_elem_of_fmap. split.
  - intros [HP ([k p'] & -> & Hin)]. apply elem_of_map_to_list in Hin.
    simpl. split; [|done]. by rewrite (Hk _ _ Hin).
  - intros [Hp HP]. split; [done|].
    exists (ObjectKeyFromObject p, p). split; [done|].
    by apply elem_of_map_to_list.
Qed.

Lemma operatorPodsOf_NoDup leaderPod m :
  keyed m ->
  NoDup (ObjectKeyFromObject <$> operatorPodsOf leaderPod m).
Proof.
  intros Hk. unfold operatorPodsOf.
  apply sublist_NoDup with (ObjectKeyFromObject <$> (map snd (map_to_list m))).
  - replace (ObjectKeyFromObject <$> map snd (map_to_list m))
      with ((map_to_list m).*1); [apply NoDup_fst_map_to_list|].
    change (map snd (map_to_list m)) with ((map_to_list m).*2).
    rewrite <- list_fmap_compose. apply list_fmap_ext.
    intros i [k p] Hi. simpl. symmetry. apply Hk.
    apply elem_of_map_to_list, list_elem_of_lookup. by exists i.
  - apply fmap_sublist, sublist_filter.
Qed.

(** Lookup in the pods after notification of the listed pods. *)
Lemma notified_operatorPods a leaderPod m k :
  keyed m ->
  notified Format a (operatorPodsOf leaderPod m) m !! k
  = (fun p =>
       if bool_decide (metav1.Labels (corev1.PodMeta leaderPod)
                         ⊆ metav1.Labels (corev1.PodMeta p))
       then markUpdated (Format (nowPod a k)) p else p) <$> m !! k.
Proof.
  intros Hk. destruct (m !! k) as [p|] eqn:Hp; simpl.
  - pose proof (Hk _ _ Hp) as Hkey. case_bool_decide as HP.
    + rewrite <- Hkey. rewrite notified_member.
      * done.
      * by apply operatorPodsOf_NoDup.
      * apply operatorPodsOf_member; [done|]. by rewrite Hkey.
    + rewrite notified_other; [done|].
      intros Hin. apply list_elem_of_fmap in Hin as (q & -> & Hq).
      apply operatorPodsOf_member in Hq as [Hq HQ]; [|done].
      rewrite Hq in Hp. by inversion Hp; subst.
  - rewrite notified_other; [done|].
    intros Hin. apply list_elem_of_fmap in Hin as (q & -> & Hq).
    apply operatorPodsOf_member in Hq as [Hq HQ]; [|done]. congruence.
Qed.

End Notification.

(** ** The group of updates *)

Section Group.

Context `{CertPackage}.
Variable Format : time.Time -> string.

(** When the three consumer resources exist, every task of the group
    succeeds, and the cluster afterwards is determined. *)
Lemma GoWait_tasks_run r a caBundle w leaderPod mw vw crd :
  WellKeyed w ->
  mutatingWebhookConfigurations w !! mutatingKey r = Some mw ->
  validatingWebhookConfigurations w !! validatingKey r = Some vw ->
  customResourceDefinitions w !! tenantsKey = Some crd ->
  let l := operatorPodsOf leaderPod (pods w) in
  exists w',
    GoWait (tasks Format r a caBundle l) w = (inr tt, w') /\
    secrets w' = secrets w /\
    validatingWebhookConfigurations w'
    = <[validatingKey r := validatingUpdated caBundle vw]>
        (validatingWebhookConfigurations w) /\
    mutatingWebhookConfigurations w'
    = <[mutatingKey r := mutatingUpdated caBundle mw]>
        (mutatingWebhookConfigurations w) /\
    customResourceDefinitions w'
    = <[tenantsKey := crdUpdated r caBundle crd]> (customResourceDefinitions w) /\
    pods w' = notified Format a l (pods w) /\
    journal w'
    = journal w
      ++ [CallUpdate KMutatingWebhookConfiguration (mutatingKey r);
          CallUpdate KValidatingWebhookConfiguration (validatingKey r)]
      ++ (if decide (crd = crdUpdated r caBundle crd) then []
          else [CallUpdate KCustomResourceDefinition tenantsKey])
      ++ map (fun p => CallUpdate KPod (ObjectKeyFromObject p)) l.
Proof.
  intros Hwf Hmw Hvw Hcrd l.
  pose proof (keyed_mutating w Hwf _ _ Hmw) as Kmw.
  pose proof (keyed_validating w Hwf _ _ Hvw) as Kvw.
  pose proof (keyed_crds w Hwf _ _ Hcrd) as Kcrd.
  unfold GoWait, tasks.
  change ([updateMutatingWebhookConfiguration r caBundle;
           updateValidatingWebhookConfiguration r caBundle;
           updateCustomResourceDefinition r caBundle]
          ++ map (updateOperatorPod Format a) l)
    with (updateMutatingWebhookConfiguration r caBundle
          :: updateValidatingWebhookConfiguration r caBundle
          :: updateCustomResourceDefinition r caBundle
          :: map (updateOperatorPod Format a) l).
  rewrite (runGroup_cons_ok _ _ _ _ (updateMutating_run r caBundle w mw Hmw Kmw)).
  set (w1 := mkWorld _ _ _ _ _ _).
  rewrite (runGroup_cons_ok _ _ _ _ (updateValidating_run r caBundle w1 vw Hvw Kvw)).
  set (w2 := mkWorld _ _ _ _ _ _).
  rewrite (runGroup_cons_ok _ _ _ _ (updateCRD_run r caBundle w2 crd Hcrd Kcrd)).
  set (w3 := if decide (crd = crdUpdated r caBundle crd) then w2 else _).
  assert (Hw3 : secrets w3 = secrets w /\
                validatingWebhookConfigurations w3
                = <[validatingKey r := validatingUpdated caBundle vw]>
                    (validatingWebhookConfigurations w) /\
                mutatingWebhookConfigurations w3
                = <[mutatingKey r := mutatingUpdated caBundle mw]>
                    (mutatingWebhookConfigurations w) /\
                customResourceDefinitions w3
                = <[tenantsKey := crdUpdated r caBundle crd]>
                    (customResourceDefinitions w) /\
                pods w3 = pods w /\
                journal w3
                = journal w
                  ++ [CallUpdate KMutatingWebhookConfiguration (mutatingKey r);
                      CallUpdate KValidatingWebhookConfiguration (validatingKey r)]
                  ++ (if decide (crd = crdUpdated r caBundle crd) then []
                      else [CallUpdate KCustomResourceDefinition tenantsKey])).
  { unfold w3. destruct (decide (crd = crdUpdated r caBundle crd)) as [E|NE]; simpl.
    - repeat (split; [done|]).
      split; [rewrite <- E; symmetry; by apply insert_id|].
      split; [done|]. by rewrite <- app_assoc.
    - repeat (split; [done|]). by rewrite <- !app_assoc. }
  clearbody w3. clear w1 w2.
  destruct Hw3 as (Hs & Hv & Hm & Hc & Hp & Hj).
  destruct (notify_run Format a l None w3) as (w' & E & Hs' & Hv' & Hm' & Hc' & Hp' & Hj').
  { by apply operatorPodsOf_NoDup, keyed_pods. }
  { intros p Hp'. rewrite Hp.
    by apply (operatorPodsOf_member leaderPod (pods w) p (keyed_pods w Hwf)). }
  exists w'. split; [exact E|].
  rewrite Hs', Hv', Hm', Hc', Hp', Hj', Hs, Hv, Hm, Hc, Hp, Hj.
  repeat (split; [done|]). by rewrite <- !app_assoc.
Qed.

(** A group that succeeded found the three consumer resources. *)
Lemma GoWait_tasks_found r a caBundle w l w' :
  WellKeyed w ->
  GoWait (tasks Format r a caBundle l) w = (inr tt, w') ->
  is_Some (mutatingWebhookConfigurations w !! mutatingKey r) /\
  is_Some (validatingWebhookConfigurations w !! validatingKey r) /\
  is_Some (customResourceDefinitions w !! tenantsKey).
Proof.
  intros Hwf E. unfold GoWait, tasks in E.
  change ([updateMutatingWebhookConfiguration r caBundle;
           updateValidatingWebhookConfiguration r caBundle;
           updateCustomResourceDefinition r caBundle]
          ++ map (updateOperatorPod Format a) l)
    with (updateMutatingWebhookConfiguration r caBundle
          :: updateValidatingWebhookConfiguration r caBundle
          :: updateCustomResourceDefinition r caBundle
          :: map (updateOperatorPod Format a) l) in E.
  destruct (mutatingWebhookConfigurations w !! mutatingKey r) as [mw|] eqn:Hmw.
  2: { pose proof (runGroup_cons_failed _ (updateValidatingWebhookConfiguration r caBundle
                     :: updateCustomResourceDefinition r caBundle
                     :: map (updateOperatorPod Format a) l) _ _ _
                     (updateMutating_missing r caBundle w Hmw)) as F.
       by rewrite E in F. }
  pose proof (keyed_mutating w Hwf _ _ Hmw) as Kmw.
  rewrite (runGroup_cons_ok _ _ _ _ (updateMutating_run r caBundle w mw Hmw Kmw)) in E.
  set (w1 := mkWorld _ _ _ _ _ _) in E.
  destruct (validatingWebhookConfigurations w !! validatingKey r) as [vw|] eqn:Hvw.
  2: { pose proof (runGroup_cons_failed _ (updateCustomResourceDefinition r caBundle
                     :: map (updateOperatorPod Format a) l) _ _ _
                     (updateValidating_missing r caBundle w1 Hvw)) as F.
       by rewrite E in F. }
  pose proof (keyed_validating w Hwf _ _ Hvw) as Kvw.
  rewrite (runGroup_cons_ok _ _ _ _ (updateValidating_run r caBundle w1 vw Hvw Kvw)) in E.
  set (w2 := mkWorld _ _ _ _ _ _) in E.
  destruct (customResourceDefinitions w !! tenantsKey) as [crd|] eqn:Hcrd.
  2: { pose proof (runGroup_cons_failed _ (map (updateOperatorPod Format a) l) _ _ _
                     (updateCRD_missing r caBundle w2 Hcrd)) as F.
       by rewrite E in F. }
  by repeat split.
Qed.

End Group.

(** ** The second half of a pass *)

Section Propagation.

Context `{CertPackage}.
Variable Format : time.Time -> string.

Lemma propagate_run r a certSecret w caBundle leaderPod mw vw crd :
  WellKeyed w ->
  corev1.Data certSecret !! corev1.ServiceAccountRootCAKey = Some caBundle ->
  pods w !! leaderKey a = Some leaderPod ->
  mutatingWebhookConfigurations w !! mutatingKey r = Some mw ->
  validatingWebhookConfigurations w !! validatingKey r = Some vw ->
  customResourceDefinitions w !! tenantsKey = Some crd ->
  let l := operatorPodsOf leaderPod (pods w) in
  exists w',
    propagate Format r a certSecret w = (outcome r a certSecret, w') /\
    secrets w' = secrets w /\
    validatingWebhookConfigurations w'
    = <[validatingKey r := validatingUpdated caBundle vw]>
        (validatingWebhookConfigurations w) /\
    mutatingWebhookConfigurations w'
    = <[mutatingKey r := mutatingUpdated caBundle mw]>
        (mutatingWebhookConfigurations w) /\
    customResourceDefinitions w'
    = <[tenantsKey := crdUpdated r caBundle crd]> (customResourceDefinitions w) /\
    pods w' = notified Format a l (pods w) /\
    journal w'
    = journal w
      ++ [CallUpdate KMutatingWebhookConfiguration (mutatingKey r);
          CallUpdate KValidatingWebhookConfiguration (validatingKey r)]
      ++ (if decide (crd = crdUpdated r caBundle crd) then []
          else [CallUpdate KCustomResourceDefinition tenantsKey])
      ++ map (fun p => CallUpdate KPod (ObjectKeyFromObject p)) l.
Proof.
  intros Hwf Hca Hleader Hmw Hvw Hcrd l.
  destruct (GoWait_tasks_run Format r a caBundle w leaderPod mw vw crd
              Hwf Hmw Hvw Hcrd) as (w' & E & Hrest).
  exists w'. split; [|exact Hrest].
  unfold propagate. rewrite Hca.
  unfold bind at 1. rewrite (getOperatorPods_run a w leaderPod Hleader).
  fold (operatorPodsOf leaderPod (pods w)).
  unfold bind at 1. rewrite E.
  unfold outcome. destruct (GenerateCertificates (rConfiguration r)); [|done].
  unfold bind, liftE, ret. by destruct (GetCertificateFromBytes _).
Qed.

Lemma propagate_found r a certSecret w res w' :
  WellKeyed w ->
  propagate Format r a certSecret w = (inr res, w') ->
  is_Some (corev1.Data certSecret !! corev1.ServiceAccountRootCAKey) /\
  is_Some (pods w !! leaderKey a) /\
  is_Some (mutatingWebhookConfigurations w !! mutatingKey r) /\
  is_Some (validatingWebhookConfigurations w !! validatingKey r) /\
  is_Some (customResourceDefinitions w !! tenantsKey).
Proof.
  intros Hwf E. unfold propagate in E.
  destruct (corev1.Data certSecret !! corev1.ServiceAccountRootCAKey) as [caBundle|];
    [|done].
  split; [done|]. unfold bind at 1 in E.
  destruct (pods w !! leaderKey a) as [leaderPod|] eqn:Hleader.
  2: { by rewrite (getOperatorPods_missing a w Hleader) in E. }
  split; [done|].
  rewrite (getOperatorPods_run a w leaderPod Hleader) in E.
  unfold bind at 1 in E.
  destruct (GoWait _ w) as [[e|[]] w1] eqn:EG; [done|].
  by apply GoWait_tasks_found in EG.
Qed.




End Propagation.

(** * The claims *)

Section Claims.

Context `{CertPackage}.
Variable Format : time.Time -> string.

(** C1. The rotation decision is true exactly when auto-generation is
    enabled and the secret lacks the CA-certificate field, or the stored
    pair fails to parse, or the parsed pair fails validation against the
    expiration threshold; in particular it is false whenever
    auto-generation is disabled, whatever the secret holds. *)
Theorem shouldUpdateCertificate_decision r now secret :
  (shouldUpdateCertificate r now secret = true <->
     GenerateCertificates (rConfiguration r) = true /\
     (corev1.Data secret !! corev1.ServiceAccountRootCAKey = None \/
      (exists err,
         GetCertificateWithPrivateKeyFromBytes
           (index (corev1.Data secret) corev1.TLSCertKey)
           (index (corev1.Data secret) corev1.TLSPrivateKeyKey) = inl err) \/
      (exists certificate key err,
         GetCertificateWithPrivateKeyFromBytes
           (index (corev1.Data secret) corev1.TLSCertKey)
           (index (corev1.Data secret) corev1.TLSPrivateKeyKey)
         = inr (certificate, key) /\
         ValidateCertificate now certificate key certificateExpirationThreshold
         = Some err)))
  /\ (GenerateCertificates (rConfiguration r) = false ->
      shouldUpdateCertificate r now secret = false).
Proof.
  unfold shouldUpdateCertificate.
  destruct (GenerateCertificates (rConfiguration r)); simpl.
  2: { split; [|done]. split; [done|]. by intros [? _]. }
  split; [|done].
  destruct (corev1.Data secret !! corev1.ServiceAccountRootCAKey) as [ca|].
  2: { split; [|done]. intros _. split; [done|]. by left. }
  destruct (GetCertificateWithPrivateKeyFromBytes _ _) as [err|[certificate key]] eqn:Eparse.
  { split; [|done]. intros _. split; [done|]. right. left. by exists err. }
  destruct (ValidateCertificate now certificate key certificateExpirationThreshold)
    as [err|] eqn:Evalid.
  - split; [|done]. intros _. split; [done|]. right. right.
    by exists certificate, key, err.
  - split; [done|]. intros [_ [?|[[err ?]|(c & k & err & [= <- <-] & Hv)]]]; try done.
    congruence.
Qed.

(** C5. On a well-keyed cluster, for the validating and for the mutating
    webhook configuration alike: if the configuration exists, the
    propagation update succeeds and stores a configuration with the same
    metadata and as many entries, in which every entry that references the
    internal service is the old entry with only its CA bundle replaced,
    and every other entry (an external URL) is the old entry itself. *)
Theorem webhook_update_selective r caBundle w :
  WellKeyed w ->
  (forall vw,
     validatingWebhookConfigurations w !! validatingKey r = Some vw ->
     exists w' vw',
       updateValidatingWebhookConfiguration r caBundle w = (inr tt, w') /\
       validatingWebhookConfigurations w' !! validatingKey r = Some vw' /\
       admissionregistrationv1.VMeta vw' = admissionregistrationv1.VMeta vw /\
       length (admissionregistrationv1.VWebhooks vw')
       = length (admissionregistrationv1.VWebhooks vw) /\
       forall i e,
         admissionregistrationv1.VWebhooks vw !! i = Some e ->
         admissionregistrationv1.VWebhooks vw' !! i
         = Some
             match admissionregistrationv1.Service
                     (admissionregistrationv1.VClientConfig e) with
             | Some svc =>
               admissionregistrationv1.mkValidatingWebhook
                 (admissionregistrationv1.VName e)
                 (admissionregistrationv1.mkWebhookClientConfig
                    (admissionregistrationv1.URL
                       (admissionregistrationv1.VClientConfig e))
                    (Some svc) caBundle)
                 (admissionregistrationv1.VRules e)
                 (admissionregistrationv1.VFailurePolicy e)
                 (admissionregistrationv1.VSideEffects e)
                 (admissionregistrationv1.VTimeoutSeconds e)
                 (admissionregistrationv1.VAdmissionReviewVersions e)
             | None => e
             end) /\
  (forall mw,
     mutatingWebhookConfigurations w !! mutatingKey r = Some mw ->
     exists w' mw',
       updateMutatingWebhookConfiguration r caBundle w = (inr tt, w') /\
       mutatingWebhookConfigurations w' !! mutatingKey r = Some mw' /\
       admissionregistrationv1.MMeta mw' = admissionregistrationv1.MMeta mw /\
       length (admissionregistrationv1.MWebhooks mw')
       = length (admissionregistrationv1.MWebhooks mw) /\
       forall i e,
         admissionregistrationv1.MWebhooks mw !! i = Some e ->
         admissionregistrationv1.MWebhooks mw' !! i
         = Some
             match admissionregistrationv1.Service
                     (admissionregistrationv1.MClientConfig e) with
             | Some svc =>
               admissionregistrationv1.mkMutatingWebhook
                 (admissionregistrationv1.MName e)
                 (admissionregistrationv1.mkWebhookClientConfig
                    (admissionregistrationv1.URL
                       (admissionregistrationv1.MClientConfig e))
                    (Some svc) caBundle)
                 (admissionregistrationv1.MRules e)
                 (admissionregistrationv1.MFailurePolicy e)
                 (admissionregistrationv1.MSideEffects e)
                 (admissionregistrationv1.MTimeoutSeconds e)
                 (admissionregistrationv1.MAdmissionReviewVersions e)
                 (admissionregistrationv1.MReinvocationPolicy e)
             | None => e
             end).
Proof.
  intros Hwf. split.
  - intros vw Hvw.
    assert (Hkey : ObjectKeyFromObject vw = validatingKey r)
      by exact (keyed_validating w Hwf _ _ Hvw).
    eexists. exists (validatingUpdated caBundle vw).
    split; [by apply updateValidating_run|].
    split; [simpl; apply lookup_insert_eq|].
    split; [done|].
    split; [apply rangeUpdate_length|].
    intros i e He. simpl. rewrite rangeUpdate_lookup, He. simpl. f_equal.
    unfold rangeEntry, validatingInternal, validatingSetCABundle.
    destruct e as [n [url [svc|] ca] ru fp se ts av]; done.
  - intros mw Hmw.
    assert (Hkey : ObjectKeyFromObject mw = mutatingKey r)
      by exact (keyed_mutating w Hwf _ _ Hmw).
    eexists. exists (mutatingUpdated caBundle mw).
    split; [by apply updateMutating_run|].
    split; [simpl; apply lookup_insert_eq|].
    split; [done|].
    split; [apply rangeUpdate_length|].
    intros i e He. simpl. rewrite rangeUpdate_lookup, He. simpl. f_equal.
    unfold rangeEntry, mutatingInternal, mutatingSetCABundle.
    destruct e as [n [url [svc|] ca] ru fp se ts av rp]; done.
Qed.

(** C7. On a well-keyed cluster where the tenant CRD exists, the CRD
    update succeeds and leaves it with the same metadata and definitions
    and with the conversion block: strategy "Webhook", service reference (the reconciler's
    namespace, "capsule-webhook-service", path "/convert", port 443), the
    given CA bundle, and review versions v1alpha1 and v1beta1. *)
Theorem crd_conversion_block r caBundle w crd :
  WellKeyed w ->
  customResourceDefinitions w !! tenantsKey = Some crd ->
  exists w' crd',
    updateCustomResourceDefinition r caBundle w = (inr tt, w') /\
    customResourceDefinitions w' !! tenantsKey = Some crd' /\
    apiextensionsv1.CRDMeta crd' = apiextensionsv1.CRDMeta crd /\
    apiextensionsv1.Definitions (apiextensionsv1.Spec crd')
    = apiextensionsv1.Definitions (apiextensionsv1.Spec crd) /\
    apiextensionsv1.Conversion (apiextensionsv1.Spec crd')
    = Some (apiextensionsv1.mkCustomResourceConversion "Webhook"
        (Some (apiextensionsv1.mkWebhookConversion
           (Some (apiextensionsv1.mkWebhookClientConfig None
              (Some (apiextensionsv1.mkServiceReference (rNamespace r)
                 "capsule-webhook-service" (Some "/convert") (Some 443)))
              caBundle))
           ["v1alpha1"; "v1beta1"]))).
Proof.
  intros Hwf Hcrd.
  assert (Hkey : ObjectKeyFromObject crd = tenantsKey)
    by exact (keyed_crds w Hwf _ _ Hcrd).
  eexists. exists (crdUpdated r caBundle crd).
  split; [by apply updateCRD_run|].
  split; [|done].
  destruct (decide (crd = crdUpdated r caBundle crd)) as [E|NE].
  - by rewrite <- E.
  - simpl. apply lookup_insert_eq.
Qed.

(** C10. If the secret that leaves the rotation decision step lacks the
    CA-certificate field, the pass returns the error "missing ca.crt field
    in <secret name> secret" and the cluster, journal included, is exactly
    as it was: no propagation and no fleet-notification update is sent
    (the step did not regenerate, for a regeneration sets the field). *)
Theorem missing_ca_field_aborts r a request w s certSecret w1 :
  secrets w !! request = Some s ->
  decisionStep r a s w = (inr certSecret, w1) ->
  corev1.Data certSecret !! corev1.ServiceAccountRootCAKey = None ->
  Reconcile Format r a request w
  = (inl (Errorf ("missing ca.crt field in "
                  +:+ TLSSecretName (rConfiguration r) +:+ " secret")), w)
  /\ w1 = w /\ certSecret = s.
Proof.
  intros Hs Hstep Hmissing.
  assert (Hsame : w1 = w /\ certSecret = s).
  { unfold decisionStep in Hstep.
    destruct (shouldUpdateCertificate r (nowValidate a) s).
    - apply regenerate_result in Hstep. destruct Hstep as (ca & crt & key & _ & _ & ->).
      simpl in Hmissing. by rewrite trustData_ca in Hmissing.
    - by inversion Hstep. }
  destruct Hsame as [-> ->]. split; [|done].
  rewrite (Reconcile_steps _ _ _ _ _ _ Hs). unfold bind. rewrite Hstep.
  unfold propagate. by rewrite Hmissing.
Qed.

(** C3 (amended). When the leader pod cannot be read, the pass fails: it
    returns an error, leaves the webhook configurations, the CRD and the
    pods untouched and sends no propagation or notification write; and
    when the pass gets as far as discovery, the error it returns is the
    discovery error. *)
Theorem discovery_failure_aborts r a request w :
  pods w !! (Getenv_NAMESPACE a, Hostname a) = None ->
  (forall res w',
     Reconcile Format r a request w = (res, w') ->
     (exists e, res = inl e) /\ persists w w') /\
  (forall s certSecret w1 caBundle,
     secrets w !! request = Some s ->
     decisionStep r a s w = (inr certSecret, w1) ->
     corev1.Data certSecret !! corev1.ServiceAccountRootCAKey = Some caBundle ->
     Reconcile Format r a request w
     = (inl (StatusNotFound KPod (Getenv_NAMESPACE a, Hostname a)), w1)).
Proof.
  intros Hleader.
  assert (Hlater : forall s certSecret w1,
            decisionStep r a s w = (inr certSecret, w1) ->
            pods w1 !! (Getenv_NAMESPACE a, Hostname a) = None).
  { intros s certSecret w1 Hstep. apply persists_decisionStep in Hstep.
    destruct Hstep as (_ & _ & _ & -> & _). done. }
  split.
  - intros res w' E.
    destruct (secrets w !! request) as [s|] eqn:Hs.
    2: { rewrite (Reconcile_missing _ _ _ _ _ Hs) in E. inversion E; subst.
         split; [by eexists|reflexivity]. }
    rewrite (Reconcile_steps _ _ _ _ _ _ Hs) in E. unfold bind in E.
    destruct (decisionStep r a s w) as [[e|certSecret] w1] eqn:Hstep.
    { inversion E; subst. split; [by eexists|].
      by apply persists_decisionStep in Hstep. }
    specialize (Hlater _ _ _ Hstep). apply persists_decisionStep in Hstep.
    unfold propagate in E.
    destruct (corev1.Data certSecret !! corev1.ServiceAccountRootCAKey).
    + unfold bind in E. rewrite (getOperatorPods_missing _ _ Hlater) in E.
      inversion E; subst. split; [by eexists|done].
    + inversion E; subst. split; [by eexists|done].
  - intros s certSecret w1 caBundle Hs Hstep Hca.
    rewrite (Reconcile_steps _ _ _ _ _ _ Hs). unfold bind. rewrite Hstep.
    unfold propagate. rewrite Hca. unfold bind.
    by rewrite (getOperatorPods_missing _ _ (Hlater _ _ _ Hstep)).
Qed.

(** C6. In a pass that decides to rotate, on a well-keyed cluster: if the
    CA or the leaf generation fails, the pass returns that error, every
    object of the cluster, the trust secret first, is as before, and
    nothing was sent but the generation requests; if both succeed, the
    secret stored under the request's name is the old one with its data
    replaced by exactly the three fields (leaf certificate, leaf key, CA
    certificate), metadata and type kept, and the pass sends at most one
    write to a secret, an update of that one. *)
Theorem regeneration_atomic r a request w s res w' :
  WellKeyed w ->
  secrets w !! request = Some s ->
  shouldUpdateCertificate r (nowValidate a) s = true ->
  Reconcile Format r a request w = (res, w') ->
  match GenerateCertificateAuthority (rand a) with
  | inl e =>
    res = inl e /\ sameObjects w w' /\
    journal w' = journal w ++ [CallGenerateCertificateAuthority]
  | inr ca =>
    match GenerateCertificate (rand a) ca (leafOptions r a) with
    | inl e =>
      res = inl e /\ sameObjects w w' /\
      journal w'
      = journal w ++ [CallGenerateCertificateAuthority;
                      CallGenerateCertificate (leafOptions r a)]
    | inr (crt, key) =>
      let s' :=
        corev1.mkSecret (corev1.SecretMeta s)
          (<[corev1.TLSCertKey := crt]>
             (<[corev1.TLSPrivateKeyKey := key]>
                (<[corev1.ServiceAccountRootCAKey := CACertificatePem ca]> ∅)))
          (corev1.SecretType s) in
      secrets w' = <[request := s']> (secrets w) /\
      exists cs,
        journal w'
        = journal w
          ++ [CallGenerateCertificateAuthority;
              CallGenerateCertificate (leafOptions r a)]
          ++ (if decide (s = s') then [] else [CallUpdate KSecret request])
          ++ cs /\
        Forall (fun c => isPropagation c = true) cs
    end
  end.
Proof.
  intros Hwf Hs Hrot E.
  pose proof (Reconcile_rotating Format r a request w s res w' Hwf Hs Hrot E) as Hrun.
  destruct (GenerateCertificateAuthority (rand a)) as [e|ca].
  { destruct Hrun as [-> ->]. by repeat split. }
  destruct (GenerateCertificate (rand a) ca (leafOptions r a)) as [e|[crt key]].
  { destruct Hrun as [-> ->]. by repeat split. }
  simpl in Hrun. apply propagates_propagate in Hrun.
  destruct Hrun as (Hsec & cs & Hj & Hcs). simpl.
  fold (trustData crt key (CACertificatePem ca)).
  change (corev1.mkSecret (corev1.SecretMeta s)
            (trustData crt key (CACertificatePem ca)) (corev1.SecretType s))
    with (corev1.withData (trustData crt key (CACertificatePem ca)) s).
  destruct (decide (s = corev1.withData (trustData crt key (CACertificatePem ca)) s))
    as [Esame|Ediff].
  - split.
    + rewrite Hsec. simpl. rewrite <- Esame. symmetry. by apply insert_id.
    + exists cs. split; [|done]. rewrite Hj. simpl. by rewrite <- app_assoc.
  - split; [by rewrite Hsec|].
    exists cs. split; [|done]. rewrite Hj. simpl. by rewrite <- !app_assoc.
Qed.




End Claims.

(** * Further properties of the controller *)

#[global] Instance steady_preorder : PreOrder steady.
Proof.
  split.
  - intros w Hwf. split; [done|]. split; [by repeat split|].
    exists []. by rewrite app_nil_r.
  - intros w1 w2 w3 H12 H23 Hwf.
    destruct (H12 Hwf) as (Hwf2 & (S1 & V1 & M1 & C1 & P1) & cs1 & J1 & F1).
    destruct (H23 Hwf2) as (Hwf3 & (S2 & V2 & M2 & C2 & P2) & cs2 & J2 & F2).
    split; [done|]. split; [repeat split; congruence|].
    exists (cs1 ++ cs2). rewrite J2, J1, app_assoc. split; [done|].
    by apply Forall_app.
Qed.

(** An update of a stored object keeps the names; a failed one changes
    nothing but the journal. *)
Ltac steady_write E c Hwf :=
  unfold Update, record, bind in E; simpl in E;
  match type of E with
  | context [?m !! ?k] =>
    let Hk := fresh "Hk" in
    destruct (m !! k) eqn:Hk; inversion E; subst; clear E;
    (split;
     [destruct Hwf; constructor; simpl; try done; by apply map_Forall_insert_2|]);
    (split;
     [repeat split; simpl; try done; apply dom_insert_lookup_L; by rewrite Hk|]);
    (exists [c]; split; [done|]; by repeat constructor)
  end.

Lemma steady_Update_Secret (o : corev1.Secret) : frame steady (Update o).
Proof.
  intros w res w' E Hwf.
  steady_write E (CallUpdate KSecret (ObjectKeyFromObject o)) Hwf.
Qed.

Lemma steady_Update_Validating
    (o : admissionregistrationv1.ValidatingWebhookConfiguration) :
  frame steady (Update o).
Proof.
  intros w res w' E Hwf.
  steady_write E (CallUpdate KValidatingWebhookConfiguration (ObjectKeyFromObject o)) Hwf.
Qed.

Lemma steady_Update_Mutating
    (o : admissionregistrationv1.MutatingWebhookConfiguration) :
  frame steady (Update o).
Proof.
  intros w res w' E Hwf.
  steady_write E (CallUpdate KMutatingWebhookConfiguration (ObjectKeyFromObject o)) Hwf.
Qed.

Lemma steady_Update_CRD (o : apiextensionsv1.CustomResourceDefinition) :
  frame steady (Update o).
Proof.
  intros w res w' E Hwf.
  steady_write E (CallUpdate KCustomResourceDefinition (ObjectKeyFromObject o)) Hwf.
Qed.

Lemma steady_Update_Pod (o : corev1.Pod) : frame steady (Update o).
Proof.
  intros w res w' E Hwf.
  steady_write E (CallUpdate KPod (ObjectKeyFromObject o)) Hwf.
Qed.

Lemma steady_logged (cs : list Call) (w : World) :
  Forall (fun c => notCreate c = true) cs -> steady w (logged cs w).
Proof.
  intros Hcs Hwf. split; [by destruct Hwf|]. split; [by repeat split|].
  by exists cs.
Qed.

#[global] Hint Resolve
  steady_Update_Secret steady_Update_Validating steady_Update_Mutating
  steady_Update_CRD steady_Update_Pod : frames.

Section Further.

Context `{CertPackage}.
Variable Format : time.Time -> string.

Lemma steady_updateCustomResourceDefinition r caBundle :
  frame steady (updateCustomResourceDefinition r caBundle).
Proof.
  intros w res w' E Hwf.
  destruct (customResourceDefinitions w !! tenantsKey) as [crd|] eqn:Hcrd.
  - pose proof (keyed_crds w Hwf _ _ Hcrd) as Kcrd.
    rewrite (updateCRD_run r caBundle w crd Hcrd Kcrd) in E.
    destruct (decide (crd = crdUpdated r caBundle crd)) as [Esame|Ediff];
      inversion E; subst; clear E.
    + by apply (reflexivity (R := steady)).
    + split.
      { destruct Hwf. constructor; simpl; try done. by apply map_Forall_insert_2. }
      split.
      { repeat split; simpl; try done. apply dom_insert_lookup_L. by rewrite Hcrd. }
      exists [CallUpdate KCustomResourceDefinition tenantsKey]. by repeat constructor.
  - rewrite (updateCRD_missing r caBundle w Hcrd) in E. inversion E; subst.
    by apply (reflexivity (R := steady)).
Qed.

Lemma steady_tasks r a caBundle operatorPods :
  Forall (frame steady) (tasks Format r a caBundle operatorPods).
Proof.
  unfold tasks. apply Forall_app. split.
  - repeat apply Forall_cons_2; [| | |apply Forall_nil_2].
    + unfold updateMutatingWebhookConfiguration. frame_steps.
    + unfold updateValidatingWebhookConfiguration. frame_steps.
    + apply steady_updateCustomResourceDefinition.
  - apply Forall_map, Forall_forall. intros p _.
    unfold updateOperatorPod. frame_steps.
Qed.

Lemma steady_propagate r a certSecret :
  frame steady (propagate Format r a certSecret).
Proof. apply frame_propagate; [typeclasses eauto|]. intros. apply steady_tasks. Qed.

(** X12. A pass on a well-keyed cluster, whatever its outcome, leaves the
    cluster well-keyed, with objects under exactly the same names as
    before in every kind, and sends no creation: the controller only ever
    updates objects that exist. *)
Theorem pass_adds_and_removes_nothing r a request w res w' :
  WellKeyed w ->
  Reconcile Format r a request w = (res, w') ->
  WellKeyed w' /\ sameKeys w w' /\
  exists cs, journal w' = journal w ++ cs /\
             Forall (fun c => notCreate c = true) cs.
Proof.
  intros Hwf E. revert Hwf. change (steady w w').
  destruct (secrets w !! request) as [s|] eqn:Hs.
  2: { rewrite (Reconcile_missing _ _ _ _ _ Hs) in E. inversion E; subst.
       reflexivity. }
  destruct (shouldUpdateCertificate r (nowValidate a) s) eqn:Hrot.
  - intros Hwf.
    pose proof (Reconcile_rotating Format r a request w s res w' Hwf Hs Hrot E) as Hrun.
    destruct (GenerateCertificateAuthority (rand a)) as [e|ca].
    { destruct Hrun as [-> ->]. revert Hwf. apply steady_logged. by repeat constructor. }
    destruct (GenerateCertificate (rand a) ca (leafOptions r a)) as [e|[crt key]].
    { destruct Hrun as [-> ->]. revert Hwf. apply steady_logged. by repeat constructor. }
    simpl in Hrun. revert Hwf. change (steady w w').
    etransitivity; [|exact (steady_propagate _ _ _ _ _ _ Hrun)].
    destruct (decide (s = _)) as [Esame|Ediff].
    + apply steady_logged. by repeat constructor.
    + intros Hwf. split.
      { destruct Hwf. constructor; simpl; try done.
        apply map_Forall_insert_2; [|done].
        exact (keyed_secrets0 _ _ Hs). }
      split.
      { repeat split; simpl; try done. apply dom_insert_lookup_L. by rewrite Hs. }
      eexists. split; [reflexivity|]. by repeat constructor.
  - rewrite (Reconcile_steps _ _ _ _ _ _ Hs) in E.
    unfold bind, decisionStep in E. rewrite Hrot in E. simpl in E.
    exact (steady_propagate _ _ _ _ _ _ E).
Qed.

(** X11. When the rotation decision is negative on the stored secret (as
    it always is with auto-generation disabled), a pass, whatever its
    outcome, leaves every secret as it is and sends nothing but writes to
    objects other than secrets: no generation request, no secret write. *)
Theorem pass_without_rotation r a request w res w' :
  (forall s, secrets w !! request = Some s ->
             shouldUpdateCertificate r (nowValidate a) s = false) ->
  Reconcile Format r a request w = (res, w') ->
  secrets w' = secrets w /\
  exists cs, journal w' = journal w ++ cs /\
             Forall (fun c => isPropagation c = true) cs.
Proof.
  intros Hvalid E. change (propagates w w').
  destruct (secrets w !! request) as [s|] eqn:Hs.
  - rewrite (Reconcile_steps _ _ _ _ _ _ Hs) in E.
    unfold bind, decisionStep in E. rewrite (Hvalid s eq_refl) in E. simpl in E.
    exact (propagates_propagate _ _ _ _ _ _ _ E).
  - rewrite (Reconcile_missing _ _ _ _ _ Hs) in E. inversion E; subst. reflexivity.
Qed.

(** The secret a decision step hands on is the one it leaves in the store,
    as far as data goes. *)
Lemma decisionStep_stored r a request w s certSecret wA :
  WellKeyed w ->
  secrets w !! request = Some s ->
  decisionStep r a s w = (inr certSecret, wA) ->
  WellKeyed wA /\ persists w wA /\
  exists s1,
    secrets wA !! request = Some s1 /\
    corev1.Data s1 = corev1.Data certSecret /\
    (shouldUpdateCertificate r (nowValidate a) s = false -> wA = w /\ certSecret = s) /\
    (shouldUpdateCertificate r (nowValidate a) s = true ->
     exists ca crt key,
       GenerateCertificateAuthority (rand a) = inr ca /\
       GenerateCertificate (rand a) ca (leafOptions r a) = inr (crt, key) /\
       certSecret = corev1.withData (trustData crt key (CACertificatePem ca)) s).
Proof.
  intros Hwf Hs Hstep.
  split; [exact (keepsKeyed_decisionStep r a s _ _ _ Hstep Hwf)|].
  split; [exact (persists_decisionStep r a s _ _ _ Hstep)|].
  unfold decisionStep in Hstep.
  destruct (shouldUpdateCertificate r (nowValidate a) s) eqn:Hrot.
  - destruct (regenerate_result _ _ _ _ _ _ Hstep) as (ca & crt & key & Hca & Hleaf & ->).
    pose proof (keyed_secrets w Hwf _ _ Hs) as Hkey.
    rewrite (regenerate_run r a s w ca crt key s Hca Hleaf) in Hstep;
      [|by rewrite Hkey|done].
    rewrite Hkey in Hstep. simpl in Hstep.
    destruct (decide (s = _)) as [Esame|Ediff]; inversion Hstep; subst wA.
    + exists s. split; [done|]. split; [by rewrite Esame at 1|].
      split; [done|]. intros _. by exists ca, crt, key.
    + eexists. split; [simpl; apply lookup_insert_eq|]. split; [done|].
      split; [done|]. intros _. by exists ca, crt, key.
  - inversion Hstep; subst. exists certSecret. by repeat split.
Qed.

(** What is known of a pass that succeeded. *)
Lemma successful_pass r a request w res w' :
  WellKeyed w ->
  Reconcile Format r a request w = (inr res, w') ->
  exists s certSecret s1 caBundle leaderPod mw vw crd,
    secrets w !! request = Some s /\
    (exists wA, decisionStep r a s w = (inr certSecret, wA)) /\
    outcome r a certSecret = inr res /\
    secrets w' !! request = Some s1 /\
    corev1.Data s1 = corev1.Data certSecret /\
    corev1.Data s1 !! corev1.ServiceAccountRootCAKey = Some caBundle /\
    pods w !! leaderKey a = Some leaderPod /\
    mutatingWebhookConfigurations w !! mutatingKey r = Some mw /\
    validatingWebhookConfigurations w !! validatingKey r = Some vw /\
    customResourceDefinitions w !! tenantsKey = Some crd /\
    validatingWebhookConfigurations w'
    = <[validatingKey r := validatingUpdated caBundle vw]>
        (validatingWebhookConfigurations w) /\
    mutatingWebhookConfigurations w'
    = <[mutatingKey r := mutatingUpdated caBundle mw]>
        (mutatingWebhookConfigurations w) /\
    customResourceDefinitions w'
    = <[tenantsKey := crdUpdated r caBundle crd]> (customResourceDefinitions w) /\
    pods w' = notified Format a (operatorPodsOf leaderPod (pods w)) (pods w).
Proof.
  intros Hwf E.
  destruct (secrets w !! request) as [s|] eqn:Hs.
  2: { by rewrite (Reconcile_missing _ _ _ _ _ Hs) in E. }
  rewrite (Reconcile_steps _ _ _ _ _ _ Hs) in E. unfold bind in E.
  destruct (decisionStep r a s w) as [[e|certSecret] wA] eqn:Hstep; [done|].
  destruct (decisionStep_stored r a request w s certSecret wA Hwf Hs Hstep)
    as (HwfA & (Hv & Hm & Hc & Hp & _) & s1 & Hs1 & Hdata & _).
  destruct (propagate_found Format r a certSecret wA res w' HwfA E)
    as ([caBundle Hca] & [leaderPod Hleader] & [mw Hmw] & [vw Hvw] & [crd Hcrd]).
  destruct (propagate_run Format r a certSecret wA caBundle leaderPod mw vw crd
              HwfA Hca Hleader Hmw Hvw Hcrd)
    as (w1 & E1 & Hsec1 & Hv1 & Hm1 & Hc1 & Hp1 & _).
  rewrite E in E1. injection E1 as Hout <-.
  exists s, certSecret, s1, caBundle, leaderPod, mw, vw, crd.
  split; [done|]. split; [by exists wA|]. split; [done|].
  split; [by rewrite Hsec1|]. split; [done|]. split; [by rewrite Hdata|].
  rewrite <- Hp, <- Hm, <- Hv, <- Hc. by repeat split.
Qed.


Lemma validatingUpdated_bundle caBundle vw e :
  e ∈ admissionregistrationv1.VWebhooks (validatingUpdated caBundle vw) ->
  is_Some (admissionregistrationv1.Service (admissionregistrationv1.VClientConfig e)) ->
  admissionregistrationv1.CABundle (admissionregistrationv1.VClientConfig e) = caBundle.
Proof.
  unfold validatingUpdated. simpl. rewrite rangeUpdate_fmap.
  intros Hin Hsvc. apply list_elem_of_fmap in Hin as (e0 & -> & _).
  unfold rangeEntry, validatingInternal in *.
  destruct e0 as [n [url [svc|] ca] ru fp se ts av]; simpl in *; [done|].
  by destruct Hsvc.
Qed.

Lemma mutatingUpdated_bundle caBundle mw e :
  e ∈ admissionregistrationv1.MWebhooks (mutatingUpdated caBundle mw) ->
  is_Some (admissionregistrationv1.Service (admissionregistrationv1.MClientConfig e)) ->
  admissionregistrationv1.CABundle (admissionregistrationv1.MClientConfig e) = caBundle.
Proof.
  unfold mutatingUpdated. simpl. rewrite rangeUpdate_fmap.
  intros Hin Hsvc. apply list_elem_of_fmap in Hin as (e0 & -> & _).
  unfold rangeEntry, mutatingInternal in *.
  destruct e0 as [n [url [svc|] ca] ru fp se ts av rp]; simpl in *; [done|].
  by destruct Hsvc.
Qed.

(** X8. After a successful pass on a well-keyed cluster all consumers
    agree with the trust secret: the secret stored under the request has a
    CA-certificate field, every entry of the validating and of the
    mutating configuration that references a service carries exactly
    those bytes as its CA bundle, and so does the conversion block of the
    tenant CRD. *)
Theorem pass_converges r a request w res w' :
  WellKeyed w ->
  Reconcile Format r a request w = (inr res, w') ->
  exists s' caBundle vw mw crd,
    secrets w' !! request = Some s' /\
    corev1.Data s' !! corev1.ServiceAccountRootCAKey = Some caBundle /\
    validatingWebhookConfigurations w' !! validatingKey r = Some vw /\
    (forall e,
       e ∈ admissionregistrationv1.VWebhooks vw ->
       is_Some (admissionregistrationv1.Service
                  (admissionregistrationv1.VClientConfig e)) ->
       admissionregistrationv1.CABundle (admissionregistrationv1.VClientConfig e)
       = caBundle) /\
    mutatingWebhookConfigurations w' !! mutatingKey r = Some mw /\
    (forall e,
       e ∈ admissionregistrationv1.MWebhooks mw ->
       is_Some (admissionregistrationv1.Service
                  (admissionregistrationv1.MClientConfig e)) ->
       admissionregistrationv1.CABundle (admissionregistrationv1.MClientConfig e)
       = caBundle) /\
    customResourceDefinitions w' !! tenantsKey = Some crd /\
    apiextensionsv1.Conversion (apiextensionsv1.Spec crd)
    = Some (conversion r caBundle).
Proof.
  intros Hwf E.
  destruct (successful_pass r a request w res w' Hwf E)
    as (s & certSecret & s1 & caBundle & leaderPod & mw & vw & crd
        & _ & _ & _ & Hs1 & _ & Hca & _ & _ & _ & _ & Hv & Hm & Hc & _).
  exists s1, caBundle, (validatingUpdated caBundle vw),
    (mutatingUpdated caBundle mw), (crdUpdated r caBundle crd).
  split; [done|]. split; [done|].
  split; [rewrite Hv; apply lookup_insert_eq|].
  split; [apply validatingUpdated_bundle|].
  split; [rewrite Hm; apply lookup_insert_eq|].
  split; [apply mutatingUpdated_bundle|].
  split; [rewrite Hc; apply lookup_insert_eq|done].
Qed.

(** X9. After a successful pass on a well-keyed cluster the leader pod
    existed, and the pods are those of before with, on each pod that
    carries all the labels of the leader, the freshness annotation set to
    the stamp of this pass; the leader itself is among them, and a pod
    lacking one of the labels is left as it was. *)
Theorem pass_notifies_fleet r a request w res w' :
  WellKeyed w ->
  Reconcile Format r a request w = (inr res, w') ->
  exists leaderPod,
    pods w !! (Getenv_NAMESPACE a, Hostname a) = Some leaderPod /\
    pods w' !! (Getenv_NAMESPACE a, Hostname a)
    = Some (markUpdated (Format (nowPod a (Getenv_NAMESPACE a, Hostname a)))
              leaderPod) /\
    forall k,
      pods w' !! k
      = (fun p =>
           if bool_decide (metav1.Labels (corev1.PodMeta leaderPod)
                             ⊆ metav1.Labels (corev1.PodMeta p))
           then markUpdated (Format (nowPod a k)) p else p) <$> pods w !! k.
Proof.
  intros Hwf E.
  destruct (successful_pass r a request w res w' Hwf E)
    as (s & certSecret & s1 & caBundle & leaderPod & mw & vw & crd
        & _ & _ & _ & _ & _ & _ & Hleader & _ & _ & _ & _ & _ & _ & Hp).
  exists leaderPod. split; [exact Hleader|].
  assert (Hall : forall k,
            pods w' !! k
            = (fun p =>
                 if bool_decide (metav1.Labels (corev1.PodMeta leaderPod)
                                   ⊆ metav1.Labels (corev1.PodMeta p))
                 then markUpdated (Format (nowPod a k)) p else p) <$> pods w !! k).
  { intros k. rewrite Hp. apply notified_operatorPods, keyed_pods, Hwf. }
  split; [|exact Hall].
  rewrite Hall. unfold leaderKey in Hleader. rewrite Hleader. simpl.
  by rewrite bool_decide_eq_true_2.
Qed.

(** X13. With auto-generation disabled, a pass on a well-keyed cluster
    succeeds exactly when the trust secret exists and has a CA-certificate
    field, the leader pod exists, and the two webhook configurations and
    the tenant CRD exist; whether the certificate and key fields hold
    anything readable plays no part. *)
Theorem pass_succeeds_iff r a request w :
  WellKeyed w ->
  GenerateCertificates (rConfiguration r) = false ->
  (exists res w', Reconcile Format r a request w = (inr res, w')) <->
  (exists s, secrets w !! request = Some s /\
             is_Some (corev1.Data s !! corev1.ServiceAccountRootCAKey)) /\
  is_Some (pods w !! (Getenv_NAMESPACE a, Hostname a)) /\
  is_Some (mutatingWebhookConfigurations w !! mutatingKey r) /\
  is_Some (validatingWebhookConfigurations w !! validatingKey r) /\
  is_Some (customResourceDefinitions w !! tenantsKey).
Proof.
  intros Hwf Hoff.
  assert (Hstep : forall s, decisionStep r a s w = (inr s, w)).
  { intros s. unfold decisionStep, shouldUpdateCertificate. by rewrite Hoff. }
  split.
  - intros (res & w' & E).
    destruct (successful_pass r a request w res w' Hwf E)
      as (s & certSecret & s1 & caBundle & leaderPod & mw & vw & crd
          & Hs & [wA HwA] & _ & _ & Hdata & Hca & Hleader & Hmw & Hvw & Hcrd & _).
    rewrite Hstep in HwA. injection HwA as <- <-.
    split; [exists s; split; [done|]; by rewrite <- Hdata, Hca|].
    unfold leaderKey in Hleader. by rewrite Hleader, Hmw, Hvw, Hcrd.
  - intros ((s & Hs & [caBundle Hca]) & [leaderPod Hleader] & [mw Hmw]
            & [vw Hvw] & [crd Hcrd]).
    destruct (propagate_run Format r a s w caBundle leaderPod mw vw crd
                Hwf Hca Hleader Hmw Hvw Hcrd) as (w' & E & _).
    exists emptyResult, w'.
    rewrite (Reconcile_steps _ _ _ _ _ _ Hs). unfold bind. rewrite Hstep.
    rewrite E. unfold outcome. by rewrite Hoff.
Qed.

(** X15. A pass on a well-keyed cluster that rotates and succeeds hands
    the fresh material on: the CA bundle written to the internal entries
    of both webhook configurations and to the CRD is the certificate of
    the CA just generated, whatever the secret held before, and the
    requeue delay is computed from the leaf certificate just issued. *)
Theorem rotation_propagates_fresh_material r a request w s res w' :
  WellKeyed w ->
  secrets w !! request = Some s ->
  shouldUpdateCertificate r (nowValidate a) s = true ->
  Reconcile Format r a request w = (inr res, w') ->
  exists ca crt key certificate vw mw crd,
    GenerateCertificateAuthority (rand a) = inr ca /\
    GenerateCertificate (rand a) ca (leafOptions r a) = inr (crt, key) /\
    GetCertificateFromBytes crt = inr certificate /\
    res = mkResult true (requeueAfter (NotAfter certificate) (nowRequeue a)) /\
    validatingWebhookConfigurations w' !! validatingKey r = Some vw /\
    (forall e,
       e ∈ admissionregistrationv1.VWebhooks vw ->
       is_Some (admissionregistrationv1.Service
                  (admissionregistrationv1.VClientConfig e)) ->
       admissionregistrationv1.CABundle (admissionregistrationv1.VClientConfig e)
       = CACertificatePem ca) /\
    mutatingWebhookConfigurations w' !! mutatingKey r = Some mw /\
    (forall e,
       e ∈ admissionregistrationv1.MWebhooks mw ->
       is_Some (admissionregistrationv1.Service
                  (admissionregistrationv1.MClientConfig e)) ->
       admissionregistrationv1.CABundle (admissionregistrationv1.MClientConfig e)
       = CACertificatePem ca) /\
    customResourceDefinitions w' !! tenantsKey = Some crd /\
    apiextensionsv1.Conversion (apiextensionsv1.Spec crd)
    = Some (conversion r (CACertificatePem ca)).
Proof.
  intros Hwf Hs Hrot E.
  destruct (successful_pass r a request w res w' Hwf E)
    as (s0 & certSecret & s1 & caBundle & leaderPod & mw & vw & crd
        & Hs0 & [wA HwA] & Hout & _ & Hdata & Hca & _ & _ & _ & _ & Hv & Hm & Hc & _).
  rewrite Hs in Hs0. injection Hs0 as <-.
  destruct (decisionStep_stored r a request w s certSecret wA Hwf Hs HwA)
    as (_ & _ & s2 & _ & _ & _ & Hfresh).
  destruct (Hfresh Hrot) as (ca & crt & key & Hgca & Hleaf & ->).
  assert (Hgen : GenerateCertificates (rConfiguration r) = true).
  { unfold shouldUpdateCertificate in Hrot.
    by destruct (GenerateCertificates (rConfiguration r)). }
  assert (Hbundle : caBundle = CACertificatePem ca).
  { rewrite Hdata in Hca. simpl in Hca. rewrite trustData_ca in Hca. congruence. }
  subst caBundle.
  unfold outcome in Hout. rewrite Hgen in Hout. simpl in Hout.
  assert (Hcrt : index (trustData crt key (CACertificatePem ca)) corev1.TLSCertKey = crt).
  { unfold index, trustData. by rewrite lookup_insert_eq. }
  rewrite Hcrt in Hout.
  destruct (GetCertificateFromBytes crt) as [e|certificate] eqn:Hparse; [done|].
  injection Hout as <-.
  exists ca, crt, key, certificate, (validatingUpdated (CACertificatePem ca) vw),
    (mutatingUpdated (CACertificatePem ca) mw),
    (crdUpdated r (CACertificatePem ca) crd).
  split; [done|]. split; [done|]. split; [done|]. split; [done|].
  split; [rewrite Hv; apply lookup_insert_eq|].
  split; [apply validatingUpdated_bundle|].
  split; [rewrite Hm; apply lookup_insert_eq|].
  split; [apply mutatingUpdated_bundle|].
  split; [rewrite Hc; apply lookup_insert_eq|done].
Qed.


Lemma validatingUpdated_twice b1 b2 vw :
  validatingUpdated b2 (validatingUpdated b1 vw) = validatingUpdated b2 vw.
Proof.
  unfold validatingUpdated. simpl. f_equal.
  rewrite !rangeUpdate_fmap, <- list_fmap_compose.
  apply list_fmap_ext. intros _ e _. simpl.
  by destruct e as [n [url [svc|] ca] ru fp se ts av].
Qed.

Lemma mutatingUpdated_twice b1 b2 mw :
  mutatingUpdated b2 (mutatingUpdated b1 mw) = mutatingUpdated b2 mw.
Proof.
  unfold mutatingUpdated. simpl. f_equal.
  rewrite !rangeUpdate_fmap, <- list_fmap_compose.
  apply list_fmap_ext. intros _ e _. simpl.
  by destruct e as [n [url [svc|] ca] ru fp se ts av rp].
Qed.

(** X1. On a well-keyed cluster the update of the validating webhook
    configuration has two outcomes.  If the configuration named in the
    settings is absent it fails with a not-found status at the first
    attempt, sends nothing and leaves the world as it is.  Otherwise it
    succeeds with exactly one update request.  In both cases no secret, no
    mutating configuration, no CRD, no pod and no validating configuration
    under another name is changed. *)
Theorem validating_update_outcomes r caBundle w res w' :
  WellKeyed w ->
  updateValidatingWebhookConfiguration r caBundle w = (res, w') ->
  (validatingWebhookConfigurations w !! validatingKey r = None ->
   res = inl (StatusNotFound KValidatingWebhookConfiguration (validatingKey r)) /\
   w' = w) /\
  (is_Some (validatingWebhookConfigurations w !! validatingKey r) ->
   res = inr tt /\
   journal w'
   = journal w ++ [CallUpdate KValidatingWebhookConfiguration (validatingKey r)]) /\
  secrets w' = secrets w /\
  mutatingWebhookConfigurations w' = mutatingWebhookConfigurations w /\
  customResourceDefinitions w' = customResourceDefinitions w /\
  pods w' = pods w /\
  forall k, k <> validatingKey r ->
            validatingWebhookConfigurations w' !! k
            = validatingWebhookConfigurations w !! k.
Proof.
  intros Hwf E.
  destruct (validatingWebhookConfigurations w !! validatingKey r) as [vw|] eqn:Hvw.
  - rewrite (updateValidating_run r caBundle w vw Hvw (keyed_validating w Hwf _ _ Hvw)) in E.
    inversion E; subst; clear E. simpl.
    split; [done|]. split; [done|]. repeat (split; [done|]).
    intros k Hk. by rewrite lookup_insert_ne.
  - rewrite (updateValidating_missing r caBundle w Hvw) in E.
    inversion E; subst; clear E.
    split; [done|]. split; [by intros [? ?]|]. by repeat split.
Qed.

(** X2. The same for the update of the mutating webhook configuration. *)
Theorem mutating_update_outcomes r caBundle w res w' :
  WellKeyed w ->
  updateMutatingWebhookConfiguration r caBundle w = (res, w') ->
  (mutatingWebhookConfigurations w !! mutatingKey r = None ->
   res = inl (StatusNotFound KMutatingWebhookConfiguration (mutatingKey r)) /\
   w' = w) /\
  (is_Some (mutatingWebhookConfigurations w !! mutatingKey r) ->
   res = inr tt /\
   journal w'
   = journal w ++ [CallUpdate KMutatingWebhookConfiguration (mutatingKey r)]) /\
  secrets w' = secrets w /\
  validatingWebhookConfigurations w' = validatingWebhookConfigurations w /\
  customResourceDefinitions w' = customResourceDefinitions w /\
  pods w' = pods w /\
  forall k, k <> mutatingKey r ->
            mutatingWebhookConfigurations w' !! k
            = mutatingWebhookConfigurations w !! k.
Proof.
  intros Hwf E.
  destruct (mutatingWebhookConfigurations w !! mutatingKey r) as [mw|] eqn:Hmw.
  - rewrite (updateMutating_run r caBundle w mw Hmw (keyed_mutating w Hwf _ _ Hmw)) in E.
    inversion E; subst; clear E. simpl.
    split; [done|]. split; [done|]. repeat (split; [done|]).
    intros k Hk. by rewrite lookup_insert_ne.
  - rewrite (updateMutating_missing r caBundle w Hmw) in E.
    inversion E; subst; clear E.
    split; [done|]. split; [by intros [? ?]|]. by repeat split.
Qed.

(** X3. On a well-keyed cluster the CRD update fails with a not-found
    status, sending nothing, when the tenant CRD is absent; when the CRD
    already carries the conversion block for this bundle it succeeds
    without sending anything and the world is as before; otherwise it
    succeeds with exactly one update request.  It never changes a secret,
    a webhook configuration, a pod or another CRD. *)
Theorem crd_update_outcomes r caBundle w res w' :
  WellKeyed w ->
  updateCustomResourceDefinition r caBundle w = (res, w') ->
  (customResourceDefinitions w !! tenantsKey = None ->
   res = inl (StatusNotFound KCustomResourceDefinition tenantsKey) /\ w' = w) /\
  (forall crd,
     customResourceDefinitions w !! tenantsKey = Some crd ->
     res = inr tt /\
     (apiextensionsv1.Conversion (apiextensionsv1.Spec crd)
      = Some (conversion r caBundle) -> w' = w) /\
     (apiextensionsv1.Conversion (apiextensionsv1.Spec crd)
      <> Some (conversion r caBundle) ->
      journal w' = journal w ++ [CallUpdate KCustomResourceDefinition tenantsKey])) /\
  secrets w' = secrets w /\
  validatingWebhookConfigurations w' = validatingWebhookConfigurations w /\
  mutatingWebhookConfigurations w' = mutatingWebhookConfigurations w /\
  pods w' = pods w /\
  forall k, k <> tenantsKey ->
            customResourceDefinitions w' !! k = customResourceDefinitions w !! k.
Proof.
  intros Hwf E.
  destruct (customResourceDefinitions w !! tenantsKey) as [crd|] eqn:Hcrd.
  - rewrite (updateCRD_run r caBundle w crd Hcrd (keyed_crds w Hwf _ _ Hcrd)) in E.
    assert (Hsame : crd = crdUpdated r caBundle crd <->
                    apiextensionsv1.Conversion (apiextensionsv1.Spec crd)
                    = Some (conversion r caBundle)).
    { destruct crd as [m [d c]]. unfold crdUpdated, apiextensionsv1.withConversion.
      simpl. split; [by intros [= ->]|by intros ->]. }
    destruct (decide (crd = crdUpdated r caBundle crd)) as [Esame|Ediff];
      inversion E; subst; clear E.
    + split; [done|]. split; [|by repeat split].
      intros crd' [= <-]. split; [done|]. split; [done|].
      intros Hne. by apply Hsame in Esame.
    + simpl. split; [done|]. split.
      * intros crd' [= <-]. split; [done|]. split; [|done].
        intros Heq. by apply Hsame in Heq.
      * repeat (split; [done|]). intros k Hk. by rewrite lookup_insert_ne.
  - rewrite (updateCRD_missing r caBundle w Hcrd) in E.
    inversion E; subst; clear E.
    split; [done|]. split; [done|]. by repeat split.
Qed.

(** X4. Two updates of a webhook configuration in a row, with any two
    bundles, leave the same objects as the second one alone: the last
    bundle wins and nothing else accumulates; with twice the same bundle
    the update is idempotent.  This holds for the validating and for the
    mutating configuration. *)
Theorem webhook_update_twice r b1 b2 w :
  WellKeyed w ->
  (is_Some (validatingWebhookConfigurations w !! validatingKey r) ->
   exists w1 w2 w2',
     updateValidatingWebhookConfiguration r b1 w = (inr tt, w1) /\
     updateValidatingWebhookConfiguration r b2 w1 = (inr tt, w2) /\
     updateValidatingWebhookConfiguration r b2 w = (inr tt, w2') /\
     sameObjects w2' w2) /\
  (is_Some (mutatingWebhookConfigurations w !! mutatingKey r) ->
   exists w1 w2 w2',
     updateMutatingWebhookConfiguration r b1 w = (inr tt, w1) /\
     updateMutatingWebhookConfiguration r b2 w1 = (inr tt, w2) /\
     updateMutatingWebhookConfiguration r b2 w = (inr tt, w2') /\
     sameObjects w2' w2).
Proof.
  intros Hwf. split.
  - intros [vw Hvw]. pose proof (keyed_validating w Hwf _ _ Hvw) as Hkey.
    eexists _, _, _.
    split; [exact (updateValidating_run r b1 w vw Hvw Hkey)|].
    split; [apply (updateValidating_run r b2 _ (validatingUpdated b1 vw));
            [simpl; apply lookup_insert_eq|exact Hkey]|].
    split; [exact (updateValidating_run r b2 w vw Hvw Hkey)|].
    unfold sameObjects. simpl.
    rewrite validatingUpdated_twice, insert_insert_eq. by repeat split.
  - intros [mw Hmw]. pose proof (keyed_mutating w Hwf _ _ Hmw) as Hkey.
    eexists _, _, _.
    split; [exact (updateMutating_run r b1 w mw Hmw Hkey)|].
    split; [apply (updateMutating_run r b2 _ (mutatingUpdated b1 mw));
            [simpl; apply lookup_insert_eq|exact Hkey]|].
    split; [exact (updateMutating_run r b2 w mw Hmw Hkey)|].
    unfold sameObjects. simpl.
    rewrite mutatingUpdated_twice, insert_insert_eq. by repeat split.
Qed.


Lemma runGroup_step_ok (t : M unit) (ts : list (M unit)) (first : option Error)
    (w w1 : World) :
  t w = (inr tt, w1) ->
  runGroup (t :: ts) first w = runGroup ts first w1.
Proof. intros E. simpl. by rewrite E. Qed.

Lemma runGroup_step_failed (t : M unit) (ts : list (M unit)) (e : Error)
    (w w1 : World) :
  t w = (inl e, w1) ->
  runGroup (t :: ts) None w = runGroup ts (Some e) w1.
Proof. intros E. simpl. by rewrite E. Qed.

(** X5. On a well-keyed cluster, notifying a pod that is still stored
    succeeds with one update request and writes back the stored version of
    the pod (not the listed copy) with the same name, namespace, labels
    and specification; its annotations, created if there were none, hold
    the stamp under capsule.clastix.io/updated and every other annotation
    as before.  No other pod and no other object changes. *)
Theorem operator_pod_update a pod w p :
  WellKeyed w ->
  pods w !! ObjectKeyFromObject pod = Some p ->
  exists w' p' annotations,
    updateOperatorPod Format a pod w = (inr tt, w') /\
    pods w' !! ObjectKeyFromObject pod = Some p' /\
    metav1.Name (corev1.PodMeta p') = metav1.Name (corev1.PodMeta p) /\
    metav1.Namespace (corev1.PodMeta p') = metav1.Namespace (corev1.PodMeta p) /\
    metav1.Labels (corev1.PodMeta p') = metav1.Labels (corev1.PodMeta p) /\
    corev1.PodSpec p' = corev1.PodSpec p /\
    metav1.Annotations (corev1.PodMeta p') = Some annotations /\
    annotations !! PodUpdateAnnotationName
    = Some (Format (nowPod a (ObjectKeyFromObject pod))) /\
    (forall k, k <> PodUpdateAnnotationName ->
               annotations !! k
               = default ∅ (metav1.Annotations (corev1.PodMeta p)) !! k) /\
    (forall k, k <> ObjectKeyFromObject pod -> pods w' !! k = pods w !! k) /\
    secrets w' = secrets w /\
    validatingWebhookConfigurations w' = validatingWebhookConfigurations w /\
    mutatingWebhookConfigurations w' = mutatingWebhookConfigurations w /\
    customResourceDefinitions w' = customResourceDefinitions w /\
    journal w' = journal w ++ [CallUpdate KPod (ObjectKeyFromObject pod)].
Proof.
  intros Hwf Hp. pose proof (keyed_pods w Hwf _ _ Hp) as Hkey.
  eexists _, _, _.
  split; [exact (updateOperatorPod_run Format a pod w p Hp Hkey)|]. simpl.
  split; [apply lookup_insert_eq|].
  repeat (split; [reflexivity|]).
  split; [apply lookup_insert_eq|].
  split.
  { intros k Hk. rewrite lookup_insert_ne by done.
    by destruct (metav1.Annotations (corev1.PodMeta p)). }
  split; [intros k Hk; by rewrite lookup_insert_ne|].
  by repeat split.
Qed.

(** X6. Notifying a pod that is no longer stored (and no pod is stored
    under the empty name): the not-found status of the read is tolerated,
    the update of the zero-valued pod is sent and fails, the call returns
    that error without another attempt, and no object changes. *)
Theorem vanished_pod_update a pod w :
  pods w !! ObjectKeyFromObject pod = None ->
  pods w !! ("", "") = None ->
  updateOperatorPod Format a pod w
  = (inl (StatusNotFound KPod ("", "")), logged [CallUpdate KPod ("", "")] w).
Proof.
  intros Hgone Hzero. unfold updateOperatorPod, RetryOnConflict, DefaultRetry.
  apply attempt_settled; [|by intros e [= <-]].
  unfold bind at 1. unfold GetOrZero, Get. simpl objects.
  change (metav1.Namespace (corev1.PodMeta pod), metav1.Name (corev1.PodMeta pod))
    with (ObjectKeyFromObject pod).
  rewrite Hgone. simpl.
  unfold Update, record, bind. simpl.
  change (ObjectKeyFromObject
            (markUpdated (Format (nowPod a (ObjectKeyFromObject pod))) zeroPod))
    with (("", "") : NamespacedName).
  by rewrite Hzero.
Qed.

(** X7. Fleet discovery on a well-keyed cluster reads and never writes.
    Without a pod named after the host in the namespace of the NAMESPACE
    variable it fails with the not-found status of that pod.  With one, it
    returns, each once, exactly the stored pods whose labels include every
    label of that leader pod, in any namespace; the leader is one of
    them. *)
Theorem fleet_discovery a w :
  WellKeyed w ->
  (pods w !! (Getenv_NAMESPACE a, Hostname a) = None ->
   getOperatorPods a w
   = (inl (StatusNotFound KPod (Getenv_NAMESPACE a, Hostname a)), w)) /\
  (forall leaderPod,
     pods w !! (Getenv_NAMESPACE a, Hostname a) = Some leaderPod ->
     exists operatorPods,
       getOperatorPods a w = (inr operatorPods, w) /\
       NoDup operatorPods /\
       leaderPod ∈ operatorPods /\
       forall p,
         p ∈ operatorPods <->
         pods w !! ObjectKeyFromObject p = Some p /\
         metav1.Labels (corev1.PodMeta leaderPod)
           ⊆ metav1.Labels (corev1.PodMeta p)).
Proof.
  intros Hwf. pose proof (keyed_pods w Hwf) as Hk. split.
  - apply getOperatorPods_missing.
  - intros leaderPod Hleader.
    exists (operatorPodsOf leaderPod (pods w)).
    split; [by apply getOperatorPods_run|].
    split; [exact (NoDup_fmap_1 _ _ (operatorPodsOf_NoDup leaderPod (pods w) Hk))|].
    split.
    + apply operatorPodsOf_member; [done|]. split; [|done].
      by rewrite (Hk _ _ Hleader).
    + intros p. by apply operatorPodsOf_member.
Qed.

(** X10. One failing update does not hold back the others.  On a
    well-keyed cluster without rotation, when only the validating webhook
    configuration is missing, the pass returns the not-found status of
    that configuration, and yet the mutating configuration and the CRD
    have received the CA bundle and the pods carrying the leader's labels
    have been stamped. *)
Theorem failed_update_does_not_stop_the_others
    r a request w s caBundle leaderPod mw crd :
  WellKeyed w ->
  secrets w !! request = Some s ->
  shouldUpdateCertificate r (nowValidate a) s = false ->
  corev1.Data s !! corev1.ServiceAccountRootCAKey = Some caBundle ->
  pods w !! (Getenv_NAMESPACE a, Hostname a) = Some leaderPod ->
  mutatingWebhookConfigurations w !! mutatingKey r = Some mw ->
  validatingWebhookConfigurations w !! validatingKey r = None ->
  customResourceDefinitions w !! tenantsKey = Some crd ->
  exists w',
    Reconcile Format r a request w
    = (inl (StatusNotFound KValidatingWebhookConfiguration (validatingKey r)), w') /\
    mutatingWebhookConfigurations w'
    = <[mutatingKey r := mutatingUpdated caBundle mw]>
        (mutatingWebhookConfigurations w) /\
    customResourceDefinitions w'
    = <[tenantsKey := crdUpdated r caBundle crd]> (customResourceDefinitions w) /\
    (forall k,
       pods w' !! k
       = (fun p =>
            if bool_decide (metav1.Labels (corev1.PodMeta leaderPod)
                              ⊆ metav1.Labels (corev1.PodMeta p))
            then markUpdated (Format (nowPod a k)) p else p) <$> pods w !! k) /\
    validatingWebhookConfigurations w' = validatingWebhookConfigurations w /\
    secrets w' = secrets w.
Proof.
  intros Hwf Hs Hrot Hca Hleader Hmw Hvw Hcrd.
  pose proof (keyed_mutating w Hwf _ _ Hmw) as Kmw.
  pose proof (keyed_crds w Hwf _ _ Hcrd) as Kcrd.
  set (l := operatorPodsOf leaderPod (pods w)).
  set (w1 := mkWorld (secrets w) (validatingWebhookConfigurations w)
               (<[mutatingKey r := mutatingUpdated caBundle mw]>
                  (mutatingWebhookConfigurations w))
               (customResourceDefinitions w) (pods w)
               (journal w ++ [CallUpdate KMutatingWebhookConfiguration (mutatingKey r)])).
  pose proof (updateCRD_run r caBundle w1 crd Hcrd Kcrd) as Ecrd.
  set (w2 := if decide (crd = crdUpdated r caBundle crd) then w1 else _) in Ecrd.
  assert (Hw2 : secrets w2 = secrets w /\
                validatingWebhookConfigurations w2 = validatingWebhookConfigurations w /\
                mutatingWebhookConfigurations w2
                = <[mutatingKey r := mutatingUpdated caBundle mw]>
                    (mutatingWebhookConfigurations w) /\
                customResourceDefinitions w2
                = <[tenantsKey := crdUpdated r caBundle crd]>
                    (customResourceDefinitions w) /\
                pods w2 = pods w).
  { unfold w2. destruct (decide (crd = crdUpdated r caBundle crd)) as [E|NE]; simpl.
    - repeat (split; [done|]). split; [|done].
      rewrite <- E. symmetry. by apply insert_id.
    - by repeat split. }
  clearbody w2. destruct Hw2 as (Hs2 & Hv2 & Hm2 & Hc2 & Hp2).
  destruct (notify_run Format a l
              (Some (StatusNotFound KValidatingWebhookConfiguration (validatingKey r))) w2)
    as (w' & E & Hs' & Hv' & Hm' & Hc' & Hp' & _).
  { by apply operatorPodsOf_NoDup, keyed_pods. }
  { intros p Hp. rewrite Hp2.
    by apply (operatorPodsOf_member leaderPod (pods w) p (keyed_pods w Hwf)). }
  exists w'. split.
  - rewrite (Reconcile_steps _ _ _ _ _ _ Hs). unfold bind at 1.
    unfold decisionStep. rewrite Hrot. unfold ret at 1.
    unfold propagate. rewrite Hca. unfold bind at 1.
    rewrite (getOperatorPods_run a w leaderPod Hleader).
    fold (operatorPodsOf leaderPod (pods w)). fold l.
    unfold bind at 1. unfold GoWait, tasks.
    change ([updateMutatingWebhookConfiguration r caBundle;
             updateValidatingWebhookConfiguration r caBundle;
             updateCustomResourceDefinition r caBundle]
            ++ map (updateOperatorPod Format a) l)
      with (updateMutatingWebhookConfiguration r caBundle
            :: updateValidatingWebhookConfiguration r caBundle
            :: updateCustomResourceDefinition r caBundle
            :: map (updateOperatorPod Format a) l).
    rewrite (runGroup_step_ok _ _ _ _ _ (updateMutating_run r caBundle w mw Hmw Kmw)).
    fold w1.
    rewrite (runGroup_step_failed _ _ _ _ _ (updateValidating_missing r caBundle w1 Hvw)).
    rewrite (runGroup_step_ok _ _ _ _ _ Ecrd).
    by rewrite E.
  - rewrite Hm', Hc', Hv', Hs', Hm2, Hc2, Hv2, Hs2. repeat (split; [done|]).
    split; [|done]. intros k. rewrite Hp', Hp2.
    apply notified_operatorPods, keyed_pods, Hwf.
Qed.


(** X14. Within the range of a 64-bit duration, the requeue delay of line
    175 is positive exactly when more than four days of whole seconds lie
    between now and NotAfter: for material with four days or less to live
    the delay is zero or negative, and a later expiry never gives a
    shorter delay. *)
Theorem requeue_delay_sign notAfter notAfter' now :
  int64_min + certificateReconciliationThreshold
    <= (time.Unix notAfter - time.Unix now) * time.Second <= int64_max ->
  int64_min + certificateReconciliationThreshold
    <= (time.Unix notAfter' - time.Unix now) * time.Second <= int64_max ->
  (0 < requeueAfter notAfter now <->
   4 * 24 * 3600 < time.Unix notAfter - time.Unix now) /\
  (time.Unix notAfter <= time.Unix notAfter' ->
   requeueAfter notAfter now <= requeueAfter notAfter' now).
Proof.
  intros Hr Hr'.
  rewrite (requeueAfter_exact notAfter now Hr), (requeueAfter_exact notAfter' now Hr').
  change (4 * (24 * time.Hour)) with 345600000000000.
  change time.Second with 1000000000. lia.
Qed.


End Further.


(** * The claims on the sample cluster *)

#[local] Existing Instance Sample.pkg.

(** C1 on the sample cluster: with auto-generation disabled the decision is
    false even for a secret that was never populated. *)
Lemma shouldUpdateCertificate_decision_witness :
  shouldUpdateCertificate (Sample.reconciler false) 0 Sample.emptySecret = false.
Proof.
  apply (proj2 (shouldUpdateCertificate_decision (Sample.reconciler false) 0
                  Sample.emptySecret)).
  reflexivity.
Defined.



(** C3, counterexample: the sample cluster without any operator pod, with
    auto-generation disabled and a populated secret.  The webhook entries
    still carry a stale bundle, yet the pass stops at discovery: it
    returns the discovery error and sends nothing, so the cluster is as it
    was. *)
Lemma discovery_failure_stops_propagation :
  Reconcile Sample.Format (Sample.reconciler false)
    (Sample.ambient Sample.Lucky 0) Sample.request Sample.isolated
  = (inl (StatusNotFound KPod ("capsule-system", "capsule-0")), Sample.isolated) /\
  journal Sample.isolated = [] /\
  (admissionregistrationv1.CABundle
     ∘ admissionregistrationv1.VClientConfig
   <$> admissionregistrationv1.VWebhooks Sample.validating)
  = [Sample.stale; Sample.stale; Sample.stale].
Proof. split; [compute_done|split; reflexivity]. Qed.

(** C3 (amended) on that cluster. *)
Lemma discovery_failure_aborts_witness :
  pods Sample.isolated !! ("capsule-system", "capsule-0") = None /\
  forall res w',
    Reconcile Sample.Format (Sample.reconciler false)
      (Sample.ambient Sample.Lucky 0) Sample.request Sample.isolated = (res, w') ->
    (exists e, res = inl e) /\ persists Sample.isolated w'.
Proof.
  assert (Hp : pods Sample.isolated !! ("capsule-system", "capsule-0") = None)
    by compute_done.
  split; [exact Hp|].
  exact (proj1 (discovery_failure_aborts Sample.Format (Sample.reconciler false)
           (Sample.ambient Sample.Lucky 0) Sample.request Sample.isolated Hp)).
Defined.



(** C5 on the sample cluster: of the validating entries, the external one
    (index 1) is stored back as it was, and the internal one at index 0
    differs from the old entry in its CA bundle only. *)
Lemma webhook_update_selective_witness :
  WellKeyed Sample.tenDays /\
  exists w' vw',
    updateValidatingWebhookConfiguration (Sample.reconciler true) Sample.bundle
      Sample.tenDays = (inr tt, w') /\
    validatingWebhookConfigurations w' !! validatingKey (Sample.reconciler true)
    = Some vw' /\
    admissionregistrationv1.VWebhooks vw' !! 1%nat
    = Some (Sample.validatingEntry "b" false) /\
    admissionregistrationv1.VWebhooks vw' !! 0%nat
    = Some (admissionregistrationv1.withVClientConfig
              (admissionregistrationv1.mkWebhookClientConfig None
                 (Some Sample.internalService) Sample.bundle)
              (Sample.validatingEntry "a" true)).
Proof.
  assert (Hwf : WellKeyed Sample.tenDays) by (apply Sample_cluster_WellKeyed; reflexivity).
  split; [exact Hwf|].
  destruct (proj1 (webhook_update_selective (Sample.reconciler true) Sample.bundle
                     Sample.tenDays Hwf) Sample.validating)
    as (w' & vw' & E & Hl & _ & _ & Hentries).
  - compute_done.
  - exists w', vw'. split; [exact E|]. split; [exact Hl|]. split.
    + exact (Hentries 1%nat (Sample.validatingEntry "b" false) eq_refl).
    + exact (Hentries 0%nat (Sample.validatingEntry "a" true) eq_refl).
Defined.

(** C7 on the sample cluster, whose CRD starts with strategy "None". *)
Lemma crd_conversion_block_witness :
  WellKeyed Sample.tenDays /\
  exists w' crd',
    updateCustomResourceDefinition (Sample.reconciler true) Sample.bundle Sample.tenDays
    = (inr tt, w') /\
    customResourceDefinitions w' !! tenantsKey = Some crd' /\
    apiextensionsv1.Strategy
      <$> apiextensionsv1.Conversion (apiextensionsv1.Spec crd') = Some "Webhook".
Proof.
  assert (Hwf : WellKeyed Sample.tenDays) by (apply Sample_cluster_WellKeyed; reflexivity).
  split; [exact Hwf|].
  destruct (crd_conversion_block (Sample.reconciler true) Sample.bundle
              Sample.tenDays Sample.crd Hwf)
    as (w' & crd' & E & Hl & _ & _ & Hconv).
  - compute_done.
  - exists w', crd'. split; [exact E|]. split; [exact Hl|]. by rewrite Hconv.
Defined.

(** C10 on the sample cluster: auto-generation disabled and a secret
    that was never populated. *)
Lemma missing_ca_field_aborts_witness :
  secrets Sample.start !! Sample.request = Some Sample.emptySecret /\
  Reconcile Sample.Format (Sample.reconciler false)
    (Sample.ambient Sample.Lucky 0) Sample.request Sample.start
  = (inl (Errorf "missing ca.crt field in capsule-tls secret"), Sample.start).
Proof.
  assert (Hs : secrets Sample.start !! Sample.request = Some Sample.emptySecret)
    by compute_done.
  split; [exact Hs|].
  apply (missing_ca_field_aborts Sample.Format (Sample.reconciler false)
           (Sample.ambient Sample.Lucky 0) Sample.request Sample.start
           Sample.emptySecret Sample.emptySecret Sample.start Hs).
  - reflexivity.
  - reflexivity.
Defined.

(** C6 on the sample cluster: the first pass rotates and the stored secret
    ends up with the three fields, under its old metadata and type. *)
Lemma regeneration_atomic_witness :
  WellKeyed Sample.start /\
  secrets (snd Sample.first)
  = <[Sample.request :=
        corev1.mkSecret (Sample.meta "capsule-system" "capsule-tls")
          (trustData (Sample.encode (180 * Sample.day))
             (list_byte_of_string "KEY") (list_byte_of_string "CA"))
          "Opaque"]> (secrets Sample.start).
Proof.
  assert (Hwf : WellKeyed Sample.start) by (apply Sample_cluster_WellKeyed; reflexivity).
  split; [exact Hwf|].
  assert (Hs : secrets Sample.start !! Sample.request = Some Sample.emptySecret)
    by compute_done.
  pose proof (regeneration_atomic Sample.Format (Sample.reconciler true)
                (Sample.ambient Sample.Lucky 0) Sample.request Sample.start
                Sample.emptySecret (fst Sample.first) (snd Sample.first)
                Hwf Hs eq_refl (surjective_pairing Sample.first)) as Hq.
  exact (proj1 Hq).
Defined.


(** * The further properties on the sample cluster *)

Lemma Sample_tenDays_WellKeyed : WellKeyed Sample.tenDays.
Proof. apply Sample_cluster_WellKeyed. reflexivity. Qed.

Lemma Sample_noValidating_WellKeyed : WellKeyed Sample.noValidating.
Proof.
  destruct Sample_tenDays_WellKeyed. constructor; simpl; done.
Qed.

(** X1 on the sample cluster: the update succeeds and the secrets are as
    before. *)
Lemma validating_update_outcomes_witness :
  WellKeyed Sample.tenDays /\
  fst (updateValidatingWebhookConfiguration (Sample.reconciler true)
         Sample.bundle Sample.tenDays) = inr tt /\
  secrets (snd (updateValidatingWebhookConfiguration (Sample.reconciler true)
                  Sample.bundle Sample.tenDays))
  = secrets Sample.tenDays.
Proof.
  split; [exact Sample_tenDays_WellKeyed|].
  destruct (validating_update_outcomes (Sample.reconciler true) Sample.bundle
              Sample.tenDays _ _ Sample_tenDays_WellKeyed
              (surjective_pairing _)) as (_ & Hok & Hsec & _).
  split; [|exact Hsec].
  apply Hok. exists Sample.validating. compute_done.
Defined.

(** X2 on the sample cluster. *)
Lemma mutating_update_outcomes_witness :
  WellKeyed Sample.tenDays /\
  fst (updateMutatingWebhookConfiguration (Sample.reconciler true)
         Sample.bundle Sample.tenDays) = inr tt /\
  secrets (snd (updateMutatingWebhookConfiguration (Sample.reconciler true)
                  Sample.bundle Sample.tenDays))
  = secrets Sample.tenDays.
Proof.
  split; [exact Sample_tenDays_WellKeyed|].
  destruct (mutating_update_outcomes (Sample.reconciler true) Sample.bundle
              Sample.tenDays _ _ Sample_tenDays_WellKeyed
              (surjective_pairing _)) as (_ & Hok & Hsec & _).
  split; [|exact Hsec].
  apply Hok. exists Sample.mutating. compute_done.
Defined.

(** X3 on the sample cluster, whose CRD has strategy "None": one update is
    sent. *)
Lemma crd_update_outcomes_witness :
  WellKeyed Sample.tenDays /\
  fst (updateCustomResourceDefinition (Sample.reconciler true)
         Sample.bundle Sample.tenDays) = inr tt /\
  journal (snd (updateCustomResourceDefinition (Sample.reconciler true)
                  Sample.bundle Sample.tenDays))
  = journal Sample.tenDays ++ [CallUpdate KCustomResourceDefinition tenantsKey].
Proof.
  split; [exact Sample_tenDays_WellKeyed|].
  destruct (crd_update_outcomes (Sample.reconciler true) Sample.bundle
              Sample.tenDays _ _ Sample_tenDays_WellKeyed
              (surjective_pairing _)) as (_ & Hfound & _).
  destruct (Hfound Sample.crd) as (Hok & _ & Hsent); [compute_done|].
  split; [exact Hok|]. apply Hsent. discriminate.
Defined.

(** X4 on the sample cluster: the stale bundle first, then the right
    one. *)
Lemma webhook_update_twice_witness :
  WellKeyed Sample.tenDays /\
  exists w1 w2 w2',
    updateValidatingWebhookConfiguration (Sample.reconciler true) Sample.stale
      Sample.tenDays = (inr tt, w1) /\
    updateValidatingWebhookConfiguration (Sample.reconciler true) Sample.bundle w1
    = (inr tt, w2) /\
    updateValidatingWebhookConfiguration (Sample.reconciler true) Sample.bundle
      Sample.tenDays = (inr tt, w2') /\
    sameObjects w2' w2.
Proof.
  split; [exact Sample_tenDays_WellKeyed|].
  apply (proj1 (webhook_update_twice (Sample.reconciler true) Sample.stale
                  Sample.bundle Sample.tenDays Sample_tenDays_WellKeyed)).
  exists Sample.validating. compute_done.
Defined.

(** X5 on the sample cluster: the pod capsule-1, which has no annotation
    yet. *)
Lemma operator_pod_update_witness :
  WellKeyed Sample.tenDays /\
  exists w' p',
    updateOperatorPod Sample.Format (Sample.ambient Sample.Lucky 0)
      (Sample.pod "capsule-1" Sample.operatorLabels) Sample.tenDays = (inr tt, w') /\
    pods w' !! ("capsule-system", "capsule-1") = Some p' /\
    metav1.Labels (corev1.PodMeta p') = Sample.operatorLabels.
Proof.
  split; [exact Sample_tenDays_WellKeyed|].
  destruct (operator_pod_update Sample.Format (Sample.ambient Sample.Lucky 0)
              (Sample.pod "capsule-1" Sample.operatorLabels) Sample.tenDays
              (Sample.pod "capsule-1" Sample.operatorLabels)
              Sample_tenDays_WellKeyed)
    as (w' & p' & annotations & E & Hl & _ & _ & Hlabels & _).
  - compute_done.
  - exists w', p'. split; [exact E|]. split; [exact Hl|exact Hlabels].
Defined.

(** X6 on the sample cluster without pods. *)
Lemma vanished_pod_update_witness :
  pods Sample.isolated !! ("capsule-system", "capsule-1") = None /\
  fst (updateOperatorPod Sample.Format (Sample.ambient Sample.Lucky 0)
         (Sample.pod "capsule-1" Sample.operatorLabels) Sample.isolated)
  = inl (StatusNotFound KPod ("", "")).
Proof.
  assert (Hgone : pods Sample.isolated !! ("capsule-system", "capsule-1") = None)
    by compute_done.
  assert (Hzero : pods Sample.isolated !! ("", "") = None) by compute_done.
  split; [exact Hgone|].
  exact (f_equal fst
           (vanished_pod_update Sample.Format (Sample.ambient Sample.Lucky 0)
              (Sample.pod "capsule-1" Sample.operatorLabels) Sample.isolated
              Hgone Hzero)).
Defined.

(** X7 on the sample cluster: the leader capsule-0 is among the pods
    listed. *)
Lemma fleet_discovery_witness :
  WellKeyed Sample.tenDays /\
  exists operatorPods,
    getOperatorPods (Sample.ambient Sample.Lucky 0) Sample.tenDays
    = (inr operatorPods, Sample.tenDays) /\
    Sample.pod "capsule-0" Sample.operatorLabels ∈ operatorPods.
Proof.
  split; [exact Sample_tenDays_WellKeyed|].
  destruct (proj2 (fleet_discovery (Sample.ambient Sample.Lucky 0) Sample.tenDays
                     Sample_tenDays_WellKeyed)
              (Sample.pod "capsule-0" Sample.operatorLabels))
    as (operatorPods & E & _ & Hin & _).
  - compute_done.
  - exists operatorPods. split; [exact E|exact Hin].
Defined.

Lemma Sample_tenDaysRun_succeeds :
  Sample.tenDaysRun
  = (inr (mkResult true (6 * Sample.day)), snd Sample.tenDaysRun).
Proof. compute_done. Qed.

Lemma Sample_first_succeeds :
  Sample.first = (inr (mkResult true (176 * Sample.day)), snd Sample.first).
Proof. compute_done. Qed.

Lemma Sample_start_WellKeyed : WellKeyed Sample.start.
Proof. apply Sample_cluster_WellKeyed. reflexivity. Qed.

(** X8 on the sample cluster: after the pass on material that expires in
    ten days, the stored secret has a CA-certificate field and the
    validating configuration is in place. *)
Lemma pass_converges_witness :
  WellKeyed Sample.tenDays /\
  exists s' caBundle vw,
    secrets (snd Sample.tenDaysRun) !! Sample.request = Some s' /\
    corev1.Data s' !! corev1.ServiceAccountRootCAKey = Some caBundle /\
    validatingWebhookConfigurations (snd Sample.tenDaysRun)
      !! validatingKey (Sample.reconciler true) = Some vw.
Proof.
  split; [exact Sample_tenDays_WellKeyed|].
  destruct (pass_converges Sample.Format (Sample.reconciler true)
              (Sample.ambient Sample.Lucky 0) Sample.request Sample.tenDays
              _ _ Sample_tenDays_WellKeyed Sample_tenDaysRun_succeeds)
    as (s' & caBundle & vw & mw & crd & Hs & Hca & Hvw & _).
  exists s', caBundle, vw.
  split; [exact Hs|]. split; [exact Hca|exact Hvw].
Defined.

(** X9 on the sample cluster: the leader capsule-0 is stamped. *)
Lemma pass_notifies_fleet_witness :
  WellKeyed Sample.tenDays /\
  exists leaderPod,
    pods Sample.tenDays !! ("capsule-system", "capsule-0") = Some leaderPod /\
    pods (snd Sample.tenDaysRun) !! ("capsule-system", "capsule-0")
    = Some (markUpdated (Sample.Format 0) leaderPod).
Proof.
  split; [exact Sample_tenDays_WellKeyed|].
  destruct (pass_notifies_fleet Sample.Format (Sample.reconciler true)
              (Sample.ambient Sample.Lucky 0) Sample.request Sample.tenDays
              _ _ Sample_tenDays_WellKeyed Sample_tenDaysRun_succeeds)
    as (leaderPod & Hleader & Hmarked & _).
  exists leaderPod. split; [exact Hleader|exact Hmarked].
Defined.

(** X10 on the sample cluster without its validating configuration. *)
Lemma failed_update_does_not_stop_the_others_witness :
  WellKeyed Sample.noValidating /\
  exists w',
    Reconcile Sample.Format (Sample.reconciler true)
      (Sample.ambient Sample.Lucky 0) Sample.request Sample.noValidating
    = (inl (StatusNotFound KValidatingWebhookConfiguration
              (validatingKey (Sample.reconciler true))), w') /\
    mutatingWebhookConfigurations w'
    = <[mutatingKey (Sample.reconciler true) :=
          mutatingUpdated Sample.bundle Sample.mutating]>
        (mutatingWebhookConfigurations Sample.noValidating).
Proof.
  split; [exact Sample_noValidating_WellKeyed|].
  destruct (failed_update_does_not_stop_the_others Sample.Format
              (Sample.reconciler true) (Sample.ambient Sample.Lucky 0)
              Sample.request Sample.noValidating
              (Sample.secretUntil (10 * Sample.day)) Sample.bundle
              (Sample.pod "capsule-0" Sample.operatorLabels)
              Sample.mutating Sample.crd Sample_noValidating_WellKeyed)
    as (w' & E & Hm & _); try compute_done.
  exists w'. split; [exact E|exact Hm].
Defined.

(** X11 on the sample cluster with auto-generation disabled. *)
Lemma pass_without_rotation_witness :
  secrets (snd (Sample.quiet Sample.tenDays)) = secrets Sample.tenDays.
Proof.
  apply (pass_without_rotation Sample.Format (Sample.reconciler false)
           (Sample.ambient Sample.Lucky 0) Sample.request Sample.tenDays
           (fst (Sample.quiet Sample.tenDays)) (snd (Sample.quiet Sample.tenDays))).
  - intros s _. reflexivity.
  - apply surjective_pairing.
Defined.

(** X12 on the sample cluster: the first pass, which rotates. *)
Lemma pass_adds_and_removes_nothing_witness :
  WellKeyed Sample.start /\ sameKeys Sample.start (snd Sample.first).
Proof.
  split; [exact Sample_start_WellKeyed|].
  apply (pass_adds_and_removes_nothing Sample.Format (Sample.reconciler true)
           (Sample.ambient Sample.Lucky 0) Sample.request Sample.start
           (fst Sample.first) (snd Sample.first) Sample_start_WellKeyed
           (surjective_pairing Sample.first)).
Defined.

(** X13 on the sample cluster with auto-generation disabled. *)
Lemma pass_succeeds_iff_witness :
  WellKeyed Sample.tenDays /\
  exists res w',
    Reconcile Sample.Format (Sample.reconciler false)
      (Sample.ambient Sample.Lucky 0) Sample.request Sample.tenDays
    = (inr res, w').
Proof.
  split; [exact Sample_tenDays_WellKeyed|].
  apply (proj2 (pass_succeeds_iff Sample.Format (Sample.reconciler false)
                  (Sample.ambient Sample.Lucky 0) Sample.request Sample.tenDays
                  Sample_tenDays_WellKeyed eq_refl)).
  split.
  { exists (Sample.secretUntil (10 * Sample.day)). split; compute_done. }
  repeat split; compute_done.
Defined.

(** X14 for material with ten and with twenty days to live. *)
Lemma requeue_delay_sign_witness :
  0 < requeueAfter (10 * Sample.day) 0 /\
  requeueAfter (10 * Sample.day) 0 <= requeueAfter (20 * Sample.day) 0.
Proof.
  destruct (requeue_delay_sign (10 * Sample.day) (20 * Sample.day) 0)
    as [Hsign Hmono]; [compute_done|compute_done|].
  split; [apply Hsign|apply Hmono]; compute_done.
Defined.

(** X15 on the sample cluster: the first pass rotates and propagates the
    certificate of the CA it generated. *)
Lemma rotation_propagates_fresh_material_witness :
  WellKeyed Sample.start /\
  exists ca vw,
    GenerateCertificateAuthority Sample.Lucky = inr ca /\
    validatingWebhookConfigurations (snd Sample.first)
      !! validatingKey (Sample.reconciler true) = Some vw /\
    forall e,
      e ∈ admissionregistrationv1.VWebhooks vw ->
      is_Some (admissionregistrationv1.Service
                 (admissionregistrationv1.VClientConfig e)) ->
      admissionregistrationv1.CABundle (admissionregistrationv1.VClientConfig e)
      = CACertificatePem ca.
Proof.
  split; [exact Sample_start_WellKeyed|].
  destruct (rotation_propagates_fresh_material Sample.Format
              (Sample.reconciler true) (Sample.ambient Sample.Lucky 0)
              Sample.request Sample.start Sample.emptySecret
              (mkResult true (176 * Sample.day)) (snd Sample.first)
              Sample_start_WellKeyed)
    as (ca & crt & key & certificate & vw & mw & crd
        & Hca & _ & _ & _ & Hvw & Hentries & _).
  - compute_done.
  - reflexivity.
  - exact Sample_first_succeeds.
  - exists ca, vw. split; [exact Hca|]. split; [exact Hvw|exact Hentries].
Defined.
